(** * ChinaTagger: the tag repository of the Telegram tag bot

    The repository holds two variants of the same program:
    [src/main.go] and a second file (called part_000 below).  Both keep
    one process-wide [data] value, persist it to [tags.json] after every
    mutation and serve the commands /ct /st /dt /lt /mt /stats and the
    [#tag] mentions.  The types, [saveData], [findTag] and
    [cleanEmptyTags] are the same text in both files and are embedded once;
    [loadData] and the command handlers differ and live in the modules
    [Part000] and [Main].

    Go strings are byte sequences: they are embedded as [string], whose
    characters are bytes, and [len] is [String.length]. *)

From Stdlib Require Import ZArith String Ascii List Lia Bool DecimalString.
From stdpp Require Import base option list strings.
Import ListNotations.

Open Scope string_scope.
Open Scope list_scope.
Open Scope Z_scope.

(** ** The pieces of the Go standard library the program calls *)

(** [fmt.Sprintf("%d", n)]. *)
Definition Sprintf_d (n : Z) : string := NilZero.string_of_int (Z.to_int n).

(** [fmt.Sprintf("User%d", id)]: the placeholder user name. *)
Definition placeholder (id : Z) : string := "User" +:+ Sprintf_d id.

(** [strings.Join]. *)
Definition Join (elems : list string) (sep : string) : string :=
  String.concat sep elems.

(** The range of an [int64]. *)
Definition int64_ok (n : Z) : bool := (- 2 ^ 63 <=? n) && (n <? 2 ^ 63).

(** *** time.Time

    A [time.Time] is kept as the RFC 3339 text that [Time.MarshalJSON]
    prints for it; the monotonic clock reading and the location pointer,
    which do not survive the file either, are not modelled. *)
Definition Time := string.

(** The zero [time.Time]. *)
Definition zeroTime : Time := "0001-01-01T00:00:00Z".

Definition digit (c : ascii) : option nat :=
  let n := nat_of_ascii c in
  if ((48 <=? n) && (n <=? 57))%nat then Some (n - 48)%nat else None.

Definition two_digits (a b : ascii) (lo hi : nat) : bool :=
  match digit a, digit b with
  | Some x, Some y => ((lo <=? 10 * x + y) && (10 * x + y <=? hi))%nat
  | _, _ => false
  end.

(** The zone suffix: [Z] or a numeric offset. *)
Definition zone (s : list ascii) : bool :=
  match s with
  | ["Z"%char] => true
  | [sg; h1; h2; ":"%char; m1; m2] =>
      (Ascii.eqb sg "+" || Ascii.eqb sg "-")
      && two_digits h1 h2 0 23 && two_digits m1 m2 0 59
  | _ => false
  end.

(** The digits of a fraction of a second, then the zone. *)
Fixpoint fraction (seen : bool) (s : list ascii) : bool :=
  match s with
  | [] => false
  | c :: rest =>
      match digit c with
      | Some _ => fraction true rest
      | None => seen && zone s
      end
  end.

(** What [Time.UnmarshalJSON] accepts inside the quotes: the layout
    [2006-01-02T15:04:05Z07:00] with an optional fraction.  The day is
    checked against 31, not against the month. *)
Definition rfc3339 (s : string) : bool :=
  match list_ascii_of_string s with
  | y1 :: y2 :: y3 :: y4 :: "-"%char :: mo1 :: mo2 :: "-"%char :: d1 :: d2
      :: "T"%char :: h1 :: h2 :: ":"%char :: mi1 :: mi2 :: ":"%char
      :: s1 :: s2 :: rest =>
      two_digits y1 y2 0 99 && two_digits y3 y4 0 99
      && two_digits mo1 mo2 1 12 && two_digits d1 d2 1 31
      && two_digits h1 h2 0 23 && two_digits mi1 mi2 0 59
      && two_digits s1 s2 0 59
      && match rest with
         | "."%char :: frac => fraction false frac
         | _ => zone rest
         end
  | _ => false
  end.

(** *** encoding/json

    A document is kept as its syntax tree; a file that is not JSON at all
    is [NotJSON].  [JInt] is a number literal with neither fraction nor
    exponent, [JReal] any other number literal. *)
#[local] Set Warnings "-register-all".
Inductive json : Type :=
  | JNull
  | JBool (b : bool)
  | JInt (n : Z)
  | JReal
  | JStr (s : string)
  | JArr (elems : list json)
  | JObj (members : list (string * json)).

Inductive FileBytes : Type :=
  | NotJSON
  | JSON (doc : json).

(** [json.Unmarshal] decodes INTO a Go value: [null] leaves a scalar or a
    struct as it is and sets a slice to nil, a JSON value of the wrong kind
    is an error.  The decoders take the current value and return [None]
    for [err != nil].  Nil and empty slices are both the empty list. *)
Definition into_string (j : json) (cur : string) : option string :=
  match j with
  | JStr s => Some s
  | JNull => Some cur
  | _ => None
  end.

Definition into_int64 (j : json) (cur : Z) : option Z :=
  match j with
  | JInt n => if int64_ok n then Some n else None
  | JNull => Some cur
  | _ => None
  end.

Definition into_Time (j : json) (cur : Time) : option Time :=
  match j with
  | JStr s => if rfc3339 s then Some s else None
  | JNull => Some cur
  | _ => None
  end.

(** The elements of an array, each decoded into a zero value. *)
Fixpoint elements {T : Type} (elem : json -> option T) (l : list json)
  : option (list T) :=
  match l with
  | [] => Some []
  | j :: rest =>
      match elem j with
      | Some x =>
          match elements elem rest with
          | Some xs => Some (x :: xs)
          | None => None
          end
      | None => None
      end
  end.

Definition into_slice {T : Type} (elem : json -> option T) (j : json)
  (cur : list T) : option (list T) :=
  match j with
  | JArr l => elements elem l
  | JNull => Some []
  | _ => None
  end.

(** Object keys are matched with the struct's field names exactly, and
    failing that without regard to ASCII letter case (the two non-ASCII
    code points that Go folds as well are left out). *)
Definition upper (c : ascii) : ascii :=
  let n := nat_of_ascii c in
  if ((97 <=? n) && (n <=? 122))%nat then ascii_of_nat (n - 32) else c.

Fixpoint foldName (s : string) : string :=
  match s with
  | EmptyString => EmptyString
  | String c rest => String (upper c) (foldName rest)
  end.

Fixpoint index_of (p : string -> bool) (i : nat) (names : list string)
  : option nat :=
  match names with
  | [] => None
  | f :: rest => if p f then Some i else index_of p (S i) rest
  end.

Definition field (names : list string) (key : string) : option nat :=
  match index_of (String.eqb key) 0 names with
  | Some i => Some i
  | None => index_of (fun f => String.eqb (foldName f) (foldName key)) 0 names
  end.

(** The members of an object, in document order; a key that names no
    field is skipped by [step] itself. *)
Fixpoint members_into {T : Type} (step : string -> json -> T -> option T)
  (kv : list (string * json)) (v : T) : option T :=
  match kv with
  | [] => Some v
  | (k, j) :: rest =>
      match step k j v with
      | Some v' => members_into step rest v'
      | None => None
      end
  end.

Definition into_struct {T : Type} (step : string -> json -> T -> option T)
  (j : json) (v : T) : option T :=
  match j with
  | JObj kv => members_into step kv v
  | JNull => Some v
  | _ => None
  end.

(** ** The data model (the same in both files) *)

Record Subscriber : Type := {
  ID : Z;
  Username : string
}.

Record Tag : Type := {
  Name : string;
  CreatorID : Z;
  CreatorName : string;
  Description : string;
  Subscribers : list Subscriber;
  CreatedAt : Time
}.

Record Data : Type := {
  Tags : list Tag
}.

(** The legacy layout, local to part_000's [loadData]. *)
Record OldTag : Type := {
  OldName : string;
  OldCreatorID : Z;
  OldCreatorName : string;
  OldDescription : string;
  OldSubscribers : list Z;
  OldCreatedAt : Time
}.

Record OldData : Type := {
  OldTags : list OldTag
}.

Definition zeroSubscriber : Subscriber := {| ID := 0; Username := "" |}.

Definition zeroTag : Tag :=
  {| Name := ""; CreatorID := 0; CreatorName := ""; Description := "";
     Subscribers := []; CreatedAt := zeroTime |}.

Definition zeroOldTag : OldTag :=
  {| OldName := ""; OldCreatorID := 0; OldCreatorName := "";
     OldDescription := ""; OldSubscribers := []; OldCreatedAt := zeroTime |}.

Definition zeroData : Data := {| Tags := [] |}.

(** *** The struct decoders that [json.Unmarshal] derives from the tags *)

Definition Subscriber_member (key : string) (j : json) (s : Subscriber)
  : option Subscriber :=
  match field ["id"; "username"] key with
  | Some 0%nat =>
      x ← into_int64 j (ID s); Some {| ID := x; Username := Username s |}
  | Some 1%nat =>
      x ← into_string j (Username s); Some {| ID := ID s; Username := x |}
  | _ => Some s
  end.

Definition into_Subscriber : json -> Subscriber -> option Subscriber :=
  into_struct Subscriber_member.

Definition tag_fields : list string :=
  ["name"; "creator_id"; "creator_name"; "description"; "subscribers";
   "created_at"].

Definition Tag_member (key : string) (j : json) (t : Tag) : option Tag :=
  match field tag_fields key with
  | Some 0%nat =>
      x ← into_string j (Name t);
      Some {| Name := x; CreatorID := CreatorID t;
              CreatorName := CreatorName t; Description := Description t;
              Subscribers := Subscribers t; CreatedAt := CreatedAt t |}
  | Some 1%nat =>
      x ← into_int64 j (CreatorID t);
      Some {| Name := Name t; CreatorID := x;
              CreatorName := CreatorName t; Description := Description t;
              Subscribers := Subscribers t; CreatedAt := CreatedAt t |}
  | Some 2%nat =>
      x ← into_string j (CreatorName t);
      Some {| Name := Name t; CreatorID := CreatorID t;
              CreatorName := x; Description := Description t;
              Subscribers := Subscribers t; CreatedAt := CreatedAt t |}
  | Some 3%nat =>
      x ← into_string j (Description t);
      Some {| Name := Name t; CreatorID := CreatorID t;
              CreatorName := CreatorName t; Description := x;
              Subscribers := Subscribers t; CreatedAt := CreatedAt t |}
  | Some 4%nat =>
      x ← into_slice (fun e => into_Subscriber e zeroSubscriber) j
            (Subscribers t);
      Some {| Name := Name t; CreatorID := CreatorID t;
              CreatorName := CreatorName t; Description := Description t;
              Subscribers := x; CreatedAt := CreatedAt t |}
  | Some 5%nat =>
      x ← into_Time j (CreatedAt t);
      Some {| Name := Name t; CreatorID := CreatorID t;
              CreatorName := CreatorName t; Description := Description t;
              Subscribers := Subscribers t; CreatedAt := x |}
  | _ => Some t
  end.

Definition into_Tag : json -> Tag -> option Tag := into_struct Tag_member.

Definition Data_member (key : string) (j : json) (d : Data) : option Data :=
  match field ["tags"] key with
  | Some 0%nat =>
      x ← into_slice (fun e => into_Tag e zeroTag) j (Tags d);
      Some {| Tags := x |}
  | _ => Some d
  end.

Definition OldTag_member (key : string) (j : json) (t : OldTag)
  : option OldTag :=
  match field tag_fields key with
  | Some 0%nat =>
      x ← into_string j (OldName t);
      Some {| OldName := x; OldCreatorID := OldCreatorID t;
              OldCreatorName := OldCreatorName t;
              OldDescription := OldDescription t;
              OldSubscribers := OldSubscribers t;
              OldCreatedAt := OldCreatedAt t |}
  | Some 1%nat =>
      x ← into_int64 j (OldCreatorID t);
      Some {| OldName := OldName t; OldCreatorID := x;
              OldCreatorName := OldCreatorName t;
              OldDescription := OldDescription t;
              OldSubscribers := OldSubscribers t;
              OldCreatedAt := OldCreatedAt t |}
  | Some 2%nat =>
      x ← into_string j (OldCreatorName t);
      Some {| OldName := OldName t; OldCreatorID := OldCreatorID t;
              OldCreatorName := x;
              OldDescription := OldDescription t;
              OldSubscribers := OldSubscribers t;
              OldCreatedAt := OldCreatedAt t |}
  | Some 3%nat =>
      x ← into_string j (OldDescription t);
      Some {| OldName := OldName t; OldCreatorID := OldCreatorID t;
              OldCreatorName := OldCreatorName t;
              OldDescription := x;
              OldSubscribers := OldSubscribers t;
              OldCreatedAt := OldCreatedAt t |}
  | Some 4%nat =>
      x ← into_slice (fun e => into_int64 e 0) j (OldSubscribers t);
      Some {| OldName := OldName t; OldCreatorID := OldCreatorID t;
              OldCreatorName := OldCreatorName t;
              OldDescription := OldDescription t;
              OldSubscribers := x;
              OldCreatedAt := OldCreatedAt t |}
  | Some 5%nat =>
      x ← into_Time j (OldCreatedAt t);
      Some {| OldName := OldName t; OldCreatorID := OldCreatorID t;
              OldCreatorName := OldCreatorName t;
              OldDescription := OldDescription t;
              OldSubscribers := OldSubscribers t;
              OldCreatedAt := x |}
  | _ => Some t
  end.

Definition into_OldTag : json -> OldTag -> option OldTag :=
  into_struct OldTag_member.

Definition OldData_member (key : string) (j : json) (d : OldData)
  : option OldData :=
  match field ["tags"] key with
  | Some 0%nat =>
      x ← into_slice (fun e => into_OldTag e zeroOldTag) j (OldTags d);
      Some {| OldTags := x |}
  | _ => Some d
  end.

(** [json.Unmarshal(file, &data)] and [json.Unmarshal(file, &oldData)]. *)
Definition Unmarshal_Data (file : FileBytes) (cur : Data) : option Data :=
  match file with
  | NotJSON => None
  | JSON doc => into_struct Data_member doc cur
  end.

Definition Unmarshal_OldData (file : FileBytes) (cur : OldData)
  : option OldData :=
  match file with
  | NotJSON => None
  | JSON doc => into_struct OldData_member doc cur
  end.

(** [json.MarshalIndent(data, "", "  ")]: the members in field order under
    their tag names.  It cannot fail on these types: a [Time] as kept here
    always has a four-digit year.  Strings are taken to be valid UTF-8, as
    every text the bot receives is, so that a string is written as it is. *)
Definition Marshal_Subscriber (s : Subscriber) : json :=
  JObj [("id", JInt (ID s)); ("username", JStr (Username s))].

Definition Marshal_Tag (t : Tag) : json :=
  JObj [("name", JStr (Name t));
        ("creator_id", JInt (CreatorID t));
        ("creator_name", JStr (CreatorName t));
        ("description", JStr (Description t));
        ("subscribers", JArr (map Marshal_Subscriber (Subscribers t)));
        ("created_at", JStr (CreatedAt t))].

Definition MarshalIndent (d : Data) : FileBytes :=
  JSON (JObj [("tags", JArr (map Marshal_Tag (Tags d)))]).

(** How a legacy file looks: [subscribers] is an array of numbers. *)
Definition Marshal_OldTag (t : OldTag) : json :=
  JObj [("name", JStr (OldName t));
        ("creator_id", JInt (OldCreatorID t));
        ("creator_name", JStr (OldCreatorName t));
        ("description", JStr (OldDescription t));
        ("subscribers", JArr (map JInt (OldSubscribers t)));
        ("created_at", JStr (OldCreatedAt t))].

Definition legacy_document (d : OldData) : FileBytes :=
  JSON (JObj [("tags", JArr (map Marshal_OldTag (OldTags d)))]).

(** ** The process state: the global [data], the file and the environment *)

Record World : Type := {
  data : Data;                    (* var data Data *)
  tags_json : option FileBytes;   (* the content of dataFile, if it exists *)
  read_ok : bool;                 (* does ioutil.ReadFile succeed *)
  write_ok : bool;                (* does ioutil.WriteFile succeed *)
  writes : nat;                   (* calls of ioutil.WriteFile so far *)
  dotenv_ok : bool;               (* does godotenv.Load succeed *)
  TELEGRAM_BOT_TOKEN : string     (* os.Getenv("TELEGRAM_BOT_TOKEN") *)
}.

Definition set_data (w : World) (d : Data) : World :=
  {| data := d; tags_json := tags_json w; read_ok := read_ok w;
     write_ok := write_ok w; writes := writes w; dotenv_ok := dotenv_ok w;
     TELEGRAM_BOT_TOKEN := TELEGRAM_BOT_TOKEN w |}.

Inductive error : Type :=
  | ReadError          (* from ioutil.ReadFile *)
  | WriteError         (* from ioutil.WriteFile *)
  | UnmarshalError     (* from json.Unmarshal *)
  | BothFormatsError   (* failed to unmarshal old and new data formats *)
  | SaveMigratedError. (* failed to save migrated data *)

(** [ioutil.WriteFile(dataFile, file, 0644)].  A failed write is taken to
    leave the old content. *)
Definition WriteFile (file : FileBytes) (w : World) : World * option error :=
  if write_ok w then
    ({| data := data w; tags_json := Some file; read_ok := read_ok w;
        write_ok := write_ok w; writes := S (writes w);
        dotenv_ok := dotenv_ok w;
        TELEGRAM_BOT_TOKEN := TELEGRAM_BOT_TOKEN w |}, None)
  else
    ({| data := data w; tags_json := tags_json w; read_ok := read_ok w;
        write_ok := write_ok w; writes := S (writes w);
        dotenv_ok := dotenv_ok w;
        TELEGRAM_BOT_TOKEN := TELEGRAM_BOT_TOKEN w |}, Some WriteError).

(** [saveData]. *)
Definition saveData (w : World) : World * option error :=
  WriteFile (MarshalIndent (data w)) w.

(** [tele.User], as far as the handlers read it. *)
Record User : Type := {
  User_ID : Z;
  User_Username : string
}.

(** What a handler sends back, one constructor per message of the source
    (both files send the same kinds of message and differ in wording). *)
Inductive Reply : Type :=
  | Usage                    (* no argument given *)
  | NameTooLong              (* tag name over 50 *)
  | TagExists                (* the tag already exists *)
  | LimitReached             (* the limit of 10 tags *)
  | DescriptionTooLong       (* description over 100 *)
  | Created (username tagName description : string)
  | TagNotFound
  | AlreadySubscribed
  | Subscribed (tagName : string)
  | NotAllowed               (* only the creator (or an admin) may delete *)
  | Deleted (tagName : string)
  | NoTags                   (* there are no tags yet *)
  | TagList (lines : list (string * nat * string))
  | MyTags (lines : list (string * string)) (found : bool)
  | Stats (lines : list (string * nat))
  | Mentions (mentions : list string)
  | Responses (blocks : list (list string * string))
  | Silent.                  (* return nil: nothing is sent *)

Definition with_Subscribers (t : Tag) (subs : list Subscriber) : Tag :=
  {| Name := Name t; CreatorID := CreatorID t; CreatorName := CreatorName t;
     Description := Description t; Subscribers := subs;
     CreatedAt := CreatedAt t |}.

(** ** The functions and handlers that both files share word for word *)

Section Shared.

(** [strings.ToLower], whose Unicode tables are not part of the
    repository. *)
Variable ToLower : string -> string.

(** The loop of [findTag]: the index stands for the pointer
    [&data.Tags[i]], the tag is what it points to. *)
Fixpoint findTag_from (name : string) (i : nat) (tags : list Tag)
  : option (nat * Tag) :=
  match tags with
  | [] => None
  | tag :: rest =>
      if String.eqb (ToLower (Name tag)) name then Some (i, tag)
      else findTag_from name (S i) rest
  end.

Definition findTag (name : string) (d : Data) : option (nat * Tag) :=
  findTag_from (ToLower name) 0%nat (Tags d).

(** [cleanEmptyTags]; the result of [saveData] is dropped. *)
Definition cleanEmptyTags (w : World) : World :=
  let newTags :=
    fold_left
      (fun newTags tag =>
         if (0 <? length (Subscribers tag))%nat then newTags ++ [tag]
         else newTags)
      (Tags (data w)) [] in
  fst (saveData (set_data w {| Tags := newTags |})).

(** The loop [for _, sub := range tag.Subscribers] of /st. *)
Fixpoint subscribed (id : Z) (subs : list Subscriber) : bool :=
  match subs with
  | [] => false
  | sub :: rest => if ID sub =? id then true else subscribed id rest
  end.

(** /st: subscribe the sender to a tag. *)
Definition handle_st (args : list string) (sender : User) (w : World)
  : Reply * World :=
  match args with
  | [] => (Usage, w)
  | arg0 :: _ =>
      match findTag arg0 (data w) with
      | None => (TagNotFound, w)
      | Some (i, tag) =>
          if subscribed (User_ID sender) (Subscribers tag)
          then (AlreadySubscribed, w)
          else
            let username :=
              if String.eqb (User_Username sender) ""
              then placeholder (User_ID sender)
              else User_Username sender in
            let tag' :=
              with_Subscribers tag
                (Subscribers tag
                   ++ [{| ID := User_ID sender; Username := username |}]) in
            let w1 :=
              set_data w {| Tags := <[i := tag']> (Tags (data w)) |} in
            (Subscribed (Name tag'), fst (saveData w1))
      end
  end.

(** The loop of /dt that keeps the tags of another name. *)
Definition remove_named (tag : Tag) (tags : list Tag) : list Tag :=
  fold_left
    (fun newTags t =>
       if negb (String.eqb (ToLower (Name t)) (ToLower (Name tag)))
       then newTags ++ [t] else newTags)
    tags [].

(** The loop of /lt over the tags left. *)
Definition list_lines (tags : list Tag) : list (string * nat * string) :=
  fold_left
    (fun response tag =>
       response ++ [(Name tag, length (Subscribers tag), Description tag)])
    tags [].

(** /lt: prune, then list all tags. *)
Definition handle_lt (w : World) : Reply * World :=
  let w1 := cleanEmptyTags w in
  if (length (Tags (data w1)) =? 0)%nat then (NoTags, w1)
  else (TagList (list_lines (Tags (data w1))), w1).

(** /mt: the tags the sender is subscribed to. *)
Definition handle_mt (sender : User) (w : World) : Reply * World :=
  let '(response, found) :=
    fold_left
      (fun acc tag =>
         fold_left
           (fun acc sub =>
              if ID sub =? User_ID sender
              then (fst acc ++ [(Name tag, Description tag)], true)
              else acc)
           (Subscribers tag) acc)
      (Tags (data w)) ([], false) in
  (MyTags response found, w).

(** The loop of /stats over the tags left. *)
Definition stats_lines (tags : list Tag) : list (string * nat) :=
  fold_left
    (fun response tag => response ++ [(Name tag, length (Subscribers tag))])
    tags [].

(** The inner loop of the mention handler: the subscribers of one tag
    that have a real user name. *)
Definition mentions_of (tag : Tag) (mentions : list string) : list string :=
  fold_left
    (fun mentions sub =>
       if negb (String.eqb (Username sub) "")
          && negb (String.eqb (Username sub) (placeholder (ID sub)))
       then mentions ++ ["@" +:+ Username sub]
       else mentions)
    (Subscribers tag) mentions.

End Shared.

(** How [loadData] ends: [log.Fatal] stops the process, otherwise an
    [error] (or nil) is returned. *)
Inductive outcome : Type :=
  | Exit
  | Return (err : option error).

(** [dst := make([]B, len(src)); for j, x := range src { dst[j] = f(x) }]. *)
Definition fill {A B : Type} (f : A -> B) (zero : B) (src : list A) : list B :=
  snd (fold_left
         (fun acc x => (S (fst acc), <[fst acc := f x]> (snd acc)))
         src (0%nat, replicate (length src) zero)).

(** ** part_000: limits on /ct, admins on /dt, migration in [loadData] *)

Module Part000.
Section Handlers.

Variable ToLower : string -> string.

(** The conversion of the old format inside [loadData]. *)
Definition convert (oldData : OldData) : list Tag :=
  fill
    (fun oldTag =>
       {| Name := OldName oldTag;
          CreatorID := OldCreatorID oldTag;
          CreatorName := OldCreatorName oldTag;
          Description := OldDescription oldTag;
          Subscribers :=
            fill (fun subID => {| ID := subID; Username := placeholder subID |})
              zeroSubscriber (OldSubscribers oldTag);
          CreatedAt := OldCreatedAt oldTag |})
    zeroTag (OldTags oldData).

(** [loadData].  When both decodings fail the process is about to stop
    and the half-decoded [data] is left out. *)
Definition loadData (w : World) : World * outcome :=
  if negb (dotenv_ok w) then (w, Exit)
  else if String.eqb (TELEGRAM_BOT_TOKEN w) "" then (w, Exit)
  else
    match tags_json w with
    | None =>
        let (w1, err) := saveData (set_data w {| Tags := [] |}) in
        (w1, Return err)
    | Some file =>
        if negb (read_ok w) then (w, Return (Some ReadError))
        else
          match Unmarshal_Data file (data w) with
          | Some d => (set_data w d, Return None)
          | None =>
              match Unmarshal_OldData file {| OldTags := [] |} with
              | None => (w, Return (Some BothFormatsError))
              | Some oldData =>
                  let w1 := set_data w {| Tags := convert oldData |} in
                  let (w2, err) := saveData w1 in
                  match err with
                  | Some _ => (w2, Return (Some SaveMigratedError))
                  | None => (w2, Return None)
                  end
              end
          end
    end.

(** /ct: create a tag.  [args] is [strings.Fields(c.Text())[1:]]: the
    words after the command, none of them empty. *)
Definition handle_ct (args : list string) (sender : User) (now : Time)
  (w : World) : Reply * World :=
  match args with
  | [] => (Usage, w)
  | tagName :: rest =>
      if (50 <? String.length tagName)%nat then (NameTooLong, w)
      else
        match findTag ToLower tagName (data w) with
        | Some _ => (TagExists, w)
        | None =>
            let userTags :=
              fold_left
                (fun userTags tag =>
                   if CreatorID tag =? User_ID sender then S userTags
                   else userTags)
                (Tags (data w)) 0%nat in
            if (10 <=? userTags)%nat then (LimitReached, w)
            else
              let description :=
                match rest with
                | [] => ""
                | _ :: _ => Join rest " "
                end in
              if (0 <? length rest)%nat
                 && (100 <? String.length description)%nat
              then (DescriptionTooLong, w)
              else
                let tag :=
                  {| Name := tagName;
                     CreatorID := User_ID sender;
                     CreatorName := User_Username sender;
                     Description := description;
                     Subscribers := [];
                     CreatedAt := now |} in
                let w1 :=
                  set_data w {| Tags := Tags (data w) ++ [tag] |} in
                (Created (User_Username sender) tagName description,
                 fst (saveData w1))
        end
  end.

(** /dt: delete a tag.  [isAdmin] is the outcome of the scan of
    [bot.AdminsOf(chat)] for the sender. *)
Definition handle_dt (args : list string) (sender : User) (isAdmin : bool)
  (w : World) : Reply * World :=
  match args with
  | [] => (Usage, w)
  | arg0 :: _ =>
      match findTag ToLower arg0 (data w) with
      | None => (TagNotFound, w)
      | Some (_, tag) =>
          if negb (CreatorID tag =? User_ID sender) && negb isAdmin
          then (NotAllowed, w)
          else
            let w1 :=
              set_data w
                {| Tags := remove_named ToLower tag (Tags (data w)) |} in
            (Deleted (Name tag), fst (saveData w1))
      end
  end.

(** /stats: prune, then the subscriber counts. *)
Definition handle_stats (w : World) : Reply * World :=
  let w1 := cleanEmptyTags w in
  if (length (Tags (data w1)) =? 0)%nat then (NoTags, w1)
  else (Stats (stats_lines (Tags (data w1))), w1).

(** The mention handler.  [words] is [strings.Fields(text)]; a text
    without [#] has no word that starts with it, so the early return of
    the source is the [Silent] of the empty loop. *)
Definition handle_text (words : list string) (w : World) : Reply * World :=
  let mentions :=
    fold_left
      (fun mentions word =>
         match word with
         | String "#"%char tagName =>
             match findTag ToLower tagName (data w) with
             | Some (_, tag) => mentions_of tag mentions
             | None => mentions
             end
         | _ => mentions
         end)
      words [] in
  if (0 <? length mentions)%nat then (Mentions mentions, w)
  else (Silent, w).

End Handlers.
End Part000.

(** ** main.go: no limits, creator-only /dt, no migration *)

Module Main.
Section Handlers.

Variable ToLower : string -> string.

(** [loadData]. *)
Definition loadData (w : World) : World * option error :=
  match tags_json w with
  | None => saveData (set_data w {| Tags := [] |})
  | Some file =>
      if negb (read_ok w) then (w, Some ReadError)
      else
        match Unmarshal_Data file (data w) with
        | Some d => (set_data w d, None)
        | None => (w, Some UnmarshalError)
        end
  end.

(** /ct: create a tag. *)
Definition handle_ct (args : list string) (sender : User) (now : Time)
  (w : World) : Reply * World :=
  match args with
  | [] => (Usage, w)
  | tagName :: rest =>
      match findTag ToLower tagName (data w) with
      | Some _ => (TagExists, w)
      | None =>
          let description :=
            match rest with
            | [] => ""
            | _ :: _ => Join rest " "
            end in
          let tag :=
            {| Name := tagName;
               CreatorID := User_ID sender;
               CreatorName := User_Username sender;
               Description := description;
               Subscribers := [];
               CreatedAt := now |} in
          let w1 := set_data w {| Tags := Tags (data w) ++ [tag] |} in
          (Created (User_Username sender) tagName description,
           fst (saveData w1))
      end
  end.

(** /dt: delete a tag; nobody but its creator may. *)
Definition handle_dt (args : list string) (sender : User) (w : World)
  : Reply * World :=
  match args with
  | [] => (Usage, w)
  | arg0 :: _ =>
      match findTag ToLower arg0 (data w) with
      | None => (TagNotFound, w)
      | Some (_, tag) =>
          if negb (CreatorID tag =? User_ID sender) then (NotAllowed, w)
          else
            let w1 :=
              set_data w
                {| Tags := remove_named ToLower tag (Tags (data w)) |} in
            (Deleted (Name tag), fst (saveData w1))
      end
  end.

(** /stats: prune, then the subscriber counts. *)
Definition handle_stats (w : World) : Reply * World :=
  let w1 := cleanEmptyTags w in
  (Stats (stats_lines (Tags (data w1))), w1).

(** The mention handler.  [matches] holds the capture [match[1]] of every
    match of the tag pattern in the text; the phrase that [rand.Intn]
    picks for a block is left to the rendering. *)
Definition handle_text (matches : list string) (w : World)
  : Reply * World :=
  let responses :=
    fold_left
      (fun responses tagName =>
         match findTag ToLower tagName (data w) with
         | None => responses
         | Some (_, tag) =>
             let mentions := mentions_of tag [] in
             if (0 <? length mentions)%nat
             then responses ++ [(mentions, tagName)]
             else responses
         end)
      matches [] in
  if (0 <? length responses)%nat then (Responses responses, w)
  else (Silent, w).

End Handlers.
End Main.

(** ** Concrete inputs used by the examples *)

(** [strings.ToLower] on ASCII text. *)
Definition lower (c : ascii) : ascii :=
  let n := nat_of_ascii c in
  if ((65 <=? n) && (n <=? 90))%nat then ascii_of_nat (n + 32) else c.

Fixpoint ToLower_ascii (s : string) : string :=
  match s with
  | EmptyString => EmptyString
  | String c rest => String (lower c) (ToLower_ascii rest)
  end.

Definition alice : User := {| User_ID := 42; User_Username := "alice" |}.
Definition bob : User := {| User_ID := 7; User_Username := "bob" |}.

Definition noon : Time := "2024-05-01T12:00:00Z".

(** A process that has just started with no file on a disk that works. *)
Definition fresh : World :=
  {| data := {| Tags := [] |}; tags_json := None; read_ok := true;
     write_ok := true; writes := 0; dotenv_ok := true;
     TELEGRAM_BOT_TOKEN := "token" |}.

Definition with_write_ok (b : bool) (w : World) : World :=
  {| data := data w; tags_json := tags_json w; read_ok := read_ok w;
     write_ok := b; writes := writes w; dotenv_ok := dotenv_ok w;
     TELEGRAM_BOT_TOKEN := TELEGRAM_BOT_TOKEN w |}.

Definition with_file (f : option FileBytes) (w : World) : World :=
  {| data := data w; tags_json := f; read_ok := read_ok w;
     write_ok := write_ok w; writes := writes w; dotenv_ok := dotenv_ok w;
     TELEGRAM_BOT_TOKEN := TELEGRAM_BOT_TOKEN w |}.

(** The tag of the walk-through: alice creates [lunch]. *)
Definition lunch : Tag :=
  {| Name := "lunch"; CreatorID := 42; CreatorName := "alice";
     Description := ""; Subscribers := []; CreatedAt := noon |}.

Definition lunch_world : World :=
  {| data := {| Tags := [lunch] |};
     tags_json := Some (MarshalIndent {| Tags := [lunch] |});
     read_ok := true; write_ok := true; writes := 1; dotenv_ok := true;
     TELEGRAM_BOT_TOKEN := "token" |}.

(** A disk that refuses every write. *)
Definition broken : World := with_write_ok false fresh.

(** A text of [n] bytes. *)
Fixpoint letters (n : nat) : string :=
  match n with
  | O => EmptyString
  | S m => String "a" (letters m)
  end.

(** Alice has created ten tags, [t0] to [t9]. *)
Definition crowded : World :=
  set_data fresh
    {| Tags :=
         map (fun n => {| Name := "t" +:+ Sprintf_d n; CreatorID := 42;
                          CreatorName := "alice"; Description := "";
                          Subscribers := []; CreatedAt := noon |})
           [0; 1; 2; 3; 4; 5; 6; 7; 8; 9] |}.

(** Two tags: [team] with a named subscriber, a migrated one and one
    without a user name; [idle] with no subscriber. *)
Definition team : Tag :=
  {| Name := "Team"; CreatorID := 42; CreatorName := "alice";
     Description := "the team";
     Subscribers := [{| ID := 7; Username := "bob" |};
                     {| ID := 5; Username := "User5" |};
                     {| ID := 6; Username := "" |}];
     CreatedAt := noon |}.

Definition idle : Tag :=
  {| Name := "idle"; CreatorID := 7; CreatorName := "bob";
     Description := ""; Subscribers := []; CreatedAt := noon |}.

Definition two_tags : World := set_data fresh {| Tags := [idle; team] |}.

(** The legacy document of the walk-through:
    [{"tags":[{"name":"x","creator_id":1,"subscribers":[5,6]}]}]. *)
Definition legacy_x : FileBytes :=
  JSON (JObj [("tags",
               JArr [JObj [("name", JStr "x"); ("creator_id", JInt 1);
                           ("subscribers", JArr [JInt 5; JInt 6])]])]).

(** A legacy document as part_000's predecessor wrote it. *)
Definition old_x : OldData :=
  {| OldTags :=
       [{| OldName := "x"; OldCreatorID := 1; OldCreatorName := "carol";
           OldDescription := ""; OldSubscribers := [5; 6];
           OldCreatedAt := noon |}] |}.

(** ** The vocabulary of the statements *)

(** A tag with at least one subscriber. *)
Definition has_subscribers (t : Tag) : bool :=
  negb (length (Subscribers t) =? 0)%nat.

(** The entries a /lt or /stats reply shows. *)
Definition listed (r : Reply) : list (string * nat * string) :=
  match r with
  | TagList lines => lines
  | _ => []
  end.

Definition counted (r : Reply) : list (string * nat) :=
  match r with
  | Stats lines => lines
  | _ => []
  end.

(** The number of entries of a subscriber list that carry [id]. *)
Definition count_id (id : Z) (subs : list Subscriber) : nat :=
  length (List.filter (fun s => ID s =? id) subs).

(** A subscriber with a real user name. *)
Definition mentionable (s : Subscriber) : bool :=
  negb (String.eqb (Username s) "")
  && negb (String.eqb (Username s) (placeholder (ID s))).

Definition at_names (subs : list Subscriber) : list string :=
  map (fun s => "@" +:+ Username s) (List.filter mentionable subs).

(** The values a Go [int64] and a [time.Time] can take. *)
Definition valid_Tag (t : Tag) : bool :=
  int64_ok (CreatorID t) && rfc3339 (CreatedAt t)
  && forallb (fun s => int64_ok (ID s)) (Subscribers t).

Definition valid_Data (d : Data) : bool := forallb valid_Tag (Tags d).

Definition valid_OldTag (t : OldTag) : bool :=
  int64_ok (OldCreatorID t) && rfc3339 (OldCreatedAt t)
  && forallb int64_ok (OldSubscribers t).

Definition valid_OldData (d : OldData) : bool :=
  forallb valid_OldTag (OldTags d).

(** A legacy tag in the current layout. *)
Definition migrated (t : OldTag) : Tag :=
  {| Name := OldName t;
     CreatorID := OldCreatorID t;
     CreatorName := OldCreatorName t;
     Description := OldDescription t;
     Subscribers :=
       map (fun id => {| ID := id; Username := placeholder id |})
         (OldSubscribers t);
     CreatedAt := OldCreatedAt t |}.

(** The characters of a UTF-8 text, which is what the bot receives: the
    bytes that do not continue a code point.  [len] counts all bytes. *)
Definition continuation (c : ascii) : bool :=
  let n := nat_of_ascii c in ((128 <=? n) && (n <? 192))%nat.

Fixpoint characters (s : string) : nat :=
  match s with
  | EmptyString => O
  | String c rest =>
      if continuation c then characters rest else S (characters rest)
  end.

(** The tag that /ct builds. *)
Definition new_tag (tagName : string) (rest : list string) (sender : User)
  (now : Time) : Tag :=
  {| Name := tagName;
     CreatorID := User_ID sender;
     CreatorName := User_Username sender;
     Description := match rest with [] => "" | _ :: _ => Join rest " " end;
     Subscribers := [];
     CreatedAt := now |}.

(** The number of tags a user has created. *)
Definition tags_of (id : Z) (tags : list Tag) : nat :=
  length (List.filter (fun t => CreatorID t =? id) tags).

(** The replies that follow a change of [data]. *)
Definition mutating (r : Reply) : bool :=
  match r with
  | Created _ _ _ | Subscribed _ | Deleted _ => true
  | _ => false
  end.

(** A handler that calls [saveData] once on each path that changes [data],
    and not otherwise; whose successful write stores the new state; and
    whose reply and in-memory result are the same whether or not the file
    can be written. *)
Definition save_result_dropped (h : World -> Reply * World) : Prop :=
  forall w : World,
    writes (snd (h w))
    = (if mutating (fst (h w)) then S (writes w) else writes w)
    /\ (mutating (fst (h w)) = true -> write_ok w = true ->
        tags_json (snd (h w)) = Some (MarshalIndent (data (snd (h w)))))
    /\ (forall b : bool,
          fst (h (with_write_ok b w)) = fst (h w)
          /\ data (snd (h (with_write_ok b w))) = data (snd (h w))).

(** What a reply of the mention handler carries. *)
Definition blocks (r : Reply) : list (list string * string) :=
  match r with
  | Responses b => b
  | _ => []
  end.

Definition mentioned (r : Reply) : list string :=
  match r with
  | Mentions m => m
  | _ => []
  end.

(** The mentions that one candidate name gives rise to, and the block
    main.go makes of them. *)
Definition names_for (ToLower : string -> string) (d : Data) (c : string)
  : list string :=
  match findTag ToLower c d with
  | Some (_, tag) => at_names (Subscribers tag)
  | None => []
  end.

Definition block_for (ToLower : string -> string) (d : Data) (c : string)
  : list (list string * string) :=
  match names_for ToLower d c with
  | [] => []
  | m => [(m, c)]
  end.

(** ** The bot as a whole *)

(** An update that [bot.Handle] routes to one of the handlers with a state
    effect or a reply that depends on the state.  [isAdmin] is a fact of
    the chat, which main.go does not ask for; a text comes with its words,
    which part_000 scans, and with the captures of the tag pattern, which
    main.go scans.  (/start sends a fixed text and is left out.) *)
Inductive Update : Type :=
  | CmdCt (args : list string) (sender : User) (now : Time)
  | CmdSt (args : list string) (sender : User)
  | CmdDt (args : list string) (sender : User) (isAdmin : bool)
  | CmdLt
  | CmdMt (sender : User)
  | CmdStats
  | Text (words matches : list string).

Definition Part000_serve (ToLower : string -> string) (u : Update) (w : World)
  : Reply * World :=
  match u with
  | CmdCt args sender now => Part000.handle_ct ToLower args sender now w
  | CmdSt args sender => handle_st ToLower args sender w
  | CmdDt args sender isAdmin => Part000.handle_dt ToLower args sender isAdmin w
  | CmdLt => handle_lt w
  | CmdMt sender => handle_mt sender w
  | CmdStats => Part000.handle_stats w
  | Text words _ => Part000.handle_text ToLower words w
  end.

Definition Main_serve (ToLower : string -> string) (u : Update) (w : World)
  : Reply * World :=
  match u with
  | CmdCt args sender now => Main.handle_ct ToLower args sender now w
  | CmdSt args sender => handle_st ToLower args sender w
  | CmdDt args sender _ => Main.handle_dt ToLower args sender w
  | CmdLt => handle_lt w
  | CmdMt sender => handle_mt sender w
  | CmdStats => Main.handle_stats w
  | Text _ matches => Main.handle_text ToLower matches w
  end.

(** The updates of a run, handled one after the other. *)
Definition run (serve : Update -> World -> Reply * World) (us : list Update)
  (w : World) : World :=
  fold_left (fun w u => snd (serve u w)) us w.

(** How [main] ends before it starts to poll. *)
Inductive startup : Type :=
  | Fatal
  | Started (w : World).

(** [main] of part_000 up to [bot.Start]; [newBot_ok] says whether
    [tele.NewBot] returns without an error. *)
Definition Part000_main (newBot_ok : bool) (w : World) : startup :=
  if negb (dotenv_ok w) then Fatal
  else if String.eqb (TELEGRAM_BOT_TOKEN w) "" then Fatal
  else if negb newBot_ok then Fatal
  else
    match Part000.loadData w with
    | (_, Exit) => Fatal
    | (_, Return (Some _)) => Fatal
    | (w1, Return None) => Started w1
    end.

(** [main] of main.go up to [bot.Start]; the result of [godotenv.Load] is
    thrown away. *)
Definition Main_main (newBot_ok : bool) (w : World) : startup :=
  if String.eqb (TELEGRAM_BOT_TOKEN w) "" then Fatal
  else if negb newBot_ok then Fatal
  else
    match Main.loadData w with
    | (_, Some _) => Fatal
    | (w1, None) => Started w1
    end.

(** A run on [two_tags]: bob tries to take the name of [team], alice
    creates [Lunch], bob subscribes to it, somebody lists the tags, alice
    deletes [team]. *)
Definition some_updates : list Update :=
  [CmdCt ["TEAM"] bob noon; CmdCt ["Lunch"; "at"; "noon"] alice noon;
   CmdSt ["lunch"] bob; CmdLt; CmdDt ["team"] alice false].

(** ** Invariants of the stored tags *)

(** No two stored names have the same lower-case text. *)
Definition unique_names (ToLower : string -> string) (tags : list Tag) : Prop :=
  List.NoDup (map (fun t => ToLower (Name t)) tags).

(** No tag lists a subscriber id twice. *)
Definition unique_ids (tags : list Tag) : Prop :=
  List.Forall (fun t => List.NoDup (map ID (Subscribers t))) tags.

(** The limits of part_000's /ct, as a property of the stored tags. *)
Definition within_limits (tags : list Tag) : Prop :=
  List.Forall
    (fun t => (String.length (Name t) <= 50)%nat
              /\ (String.length (Description t) <= 100)%nat) tags
  /\ (forall id : Z, (tags_of id tags <= 10)%nat).

(** The file holds the state in memory. *)
Definition in_sync (w : World) : Prop :=
  tags_json w = Some (MarshalIndent (data w)).

(** The tags in which [id] is subscribed. *)
Definition subscribed_tags (id : Z) (tags : list Tag) : list Tag :=
  List.filter (fun t => subscribed id (Subscribers t)) tags.

(** The ways in which a handler changes the stored tags: not at all; one
    new tag without subscribers under a name that finds nothing (and, where
    [limits] is set, within the limits of part_000); one new subscriber,
    whose id the tag did not hold, at the end of one tag's list; or the
    removal of the tags that fail a test. *)
Inductive step (ToLower : string -> string) (limits : bool)
  : list Tag -> list Tag -> Prop :=
  | step_same (tags : list Tag) : step ToLower limits tags tags
  | step_add (tags : list Tag) (t : Tag) :
      findTag ToLower (Name t) {| Tags := tags |} = None ->
      Subscribers t = [] ->
      (limits = true ->
       (String.length (Name t) <= 50)%nat
       /\ (String.length (Description t) <= 100)%nat
       /\ (tags_of (CreatorID t) tags < 10)%nat) ->
      step ToLower limits tags (tags ++ [t])
  | step_subscribe (tags : list Tag) (i : nat) (tag : Tag) (s : Subscriber) :
      tags !! i = Some tag ->
      subscribed (ID s) (Subscribers tag) = false ->
      step ToLower limits tags
        (<[i := with_Subscribers tag (Subscribers tag ++ [s])]> tags)
  | step_remove (tags : list Tag) (keep : Tag -> bool) :
      step ToLower limits tags (List.filter keep tags).

(** [t'] is [t] with the same name, creator, description and creation
    time, and with the subscribers of [t] followed by at most one more. *)
Definition grown (t t' : Tag) : Prop :=
  Name t' = Name t /\ CreatorID t' = CreatorID t
  /\ CreatorName t' = CreatorName t /\ Description t' = Description t
  /\ CreatedAt t' = CreatedAt t
  /\ exists more : list Subscriber,
       Subscribers t' = Subscribers t ++ more /\ (length more <= 1)%nat.

(** The updates whose handler prunes. *)
Definition prunes (u : Update) : bool :=
  match u with
  | CmdLt | CmdStats => true
  | _ => false
  end.

(** ** The text of main.go's mention reply *)

(** A line feed. *)
Definition nl : string := String (ascii_of_nat 10) EmptyString.

(** [fmt.Sprintf] for string operands and formats whose only verbs are
    [%s] and [%%]: an operand too few prints [%!s(MISSING)], operands left
    over are listed behind [%!(EXTRA].  Other verbs are outside this model
    ([None]). *)
Fixpoint Sprintf (format : string) (args : list string) : option string :=
  match format with
  | EmptyString =>
      Some match args with
           | [] => ""
           | _ :: _ =>
               "%!(EXTRA "
               +:+ Join (map (fun a => "string=" +:+ a) args) ", "
               +:+ ")"
           end
  | String "%" (String "s" rest) =>
      match args with
      | a :: args' => option_map (String.append a) (Sprintf rest args')
      | [] => option_map (String.append "%!s(MISSING)") (Sprintf rest [])
      end
  | String "%" (String "%" rest) =>
      option_map (String "%") (Sprintf rest args)
  | String "%" _ => None
  | String c rest => option_map (String c) (Sprintf rest args)
  end.

(** [funnyPhrases] of main.go. *)
Definition funnyPhrases : list string :=
  ["Ау! Китайские сыновья солнца, вас тут пингуют.";
   "Просыпайтесь, воины тега #%s!";
   "Снова вы, #%s? Ну давайте...";
   "Собрание #%s начинается. Кто опоздает — тот кодит в пятницу вечером!";
   "🔔 Призыв по тегу #%s! Сбор у обелиска."].

(** The text of one block of main.go's mention reply; [pick] is what
    [rand.Intn(len(funnyPhrases))] returned. *)
Definition Main_response (pick : nat) (mentions : list string)
  (tagName : string) : option string :=
  match Sprintf (nth pick funnyPhrases "") [tagName] with
  | Some phrase =>
      Sprintf ("%s" +:+ nl +:+ "%s") [Join mentions " "; phrase]
  | None => None
  end.

(** ** Loops as list functions *)

Section Loops.

Context {A B : Type}.

Lemma fold_left_keep (p : A -> bool) (l acc : list A) :
  fold_left (fun acc x => if p x then acc ++ [x] else acc) l acc
  = acc ++ List.filter p l.
Proof.
  revert acc; induction l as [|x l IH]; intros acc; simpl.
  - by rewrite app_nil_r.
  - rewrite IH. destruct (p x); [|done]. by rewrite <- app_assoc.
Qed.

Lemma fold_left_emit (f : A -> B) (l : list A) (acc : list B) :
  fold_left (fun acc x => acc ++ [f x]) l acc = acc ++ map f l.
Proof.
  revert acc; induction l as [|x l IH]; intros acc; simpl.
  - by rewrite app_nil_r.
  - rewrite IH. by rewrite <- app_assoc.
Qed.

Lemma fold_left_count (p : A -> bool) (l : list A) (n : nat) :
  fold_left (fun n x => if p x then S n else n) l n
  = (n + length (List.filter p l))%nat.
Proof.
  revert n; induction l as [|x l IH]; intros n; simpl; [lia|].
  rewrite IH. destruct (p x); simpl; lia.
Qed.

Lemma fold_left_keep_emit (p : A -> bool) (f : A -> B) (l : list A)
  (acc : list B) :
  fold_left (fun acc x => if p x then acc ++ [f x] else acc) l acc
  = acc ++ map f (List.filter p l).
Proof.
  revert acc; induction l as [|x l IH]; intros acc; simpl.
  - by rewrite app_nil_r.
  - rewrite IH. destruct (p x); [|done]. by rewrite <- app_assoc.
Qed.

Lemma fold_left_flat (step : list B -> A -> list B) (g : A -> list B)
  (l : list A) (acc : list B) :
  (forall acc x, step acc x = acc ++ g x) ->
  fold_left step l acc = acc ++ flat_map g l.
Proof.
  intros Hstep. revert acc; induction l as [|x l IH]; intros acc; simpl.
  - by rewrite app_nil_r.
  - by rewrite IH, Hstep, <- app_assoc.
Qed.

Lemma fill_loop (f : A -> B) (zero : B) (src : list A) (done : list B) :
  fold_left
    (fun acc x => (S (fst acc), <[fst acc := f x]> (snd acc)))
    src (length done, done ++ replicate (length src) zero)
  = (length done + length src, done ++ map f src)%nat.
Proof.
  revert done; induction src as [|x src IH]; intros done; simpl.
  - f_equal. lia.
  - replace (<[length done := f x]> (done ++ zero :: replicate (length src) zero))
      with ((done ++ [f x]) ++ replicate (length src) zero).
    + replace (S (length done)) with (length (done ++ [f x]))
        by (rewrite length_app; simpl; lia).
      rewrite IH. rewrite length_app, <- app_assoc. simpl. f_equal. lia.
    + rewrite <- app_assoc. simpl.
      rewrite insert_app_r_alt by lia.
      by rewrite Nat.sub_diag.
Qed.

Lemma fill_map (f : A -> B) (zero : B) (src : list A) :
  fill f zero src = map f src.
Proof.
  unfold fill.
  pose proof (fill_loop f zero src []) as H. simpl in H. by rewrite H.
Qed.

End Loops.

(** ** [saveData] and [cleanEmptyTags] *)

Lemma saveData_data (w : World) : data (fst (saveData w)) = data w.
Proof. unfold saveData, WriteFile. by destruct (write_ok w). Qed.

Lemma saveData_writes (w : World) :
  writes (fst (saveData w)) = S (writes w).
Proof. unfold saveData, WriteFile. by destruct (write_ok w). Qed.

Lemma saveData_written (w : World) :
  write_ok w = true ->
  tags_json (fst (saveData w)) = Some (MarshalIndent (data w))
  /\ snd (saveData w) = None.
Proof. intros H. unfold saveData, WriteFile. by rewrite H. Qed.

Lemma saveData_failed (w : World) :
  write_ok w = false ->
  tags_json (fst (saveData w)) = tags_json w
  /\ snd (saveData w) = Some WriteError.
Proof. intros H. unfold saveData, WriteFile. by rewrite H. Qed.

Lemma saveData_write_ok (w : World) :
  write_ok (fst (saveData w)) = write_ok w.
Proof. unfold saveData, WriteFile. by destruct (write_ok w). Qed.

Lemma filter_sublist {A : Type} (p : A -> bool) (l : list A) :
  sublist (List.filter p l) l.
Proof.
  induction l as [|x l IH]; simpl; [constructor|].
  destruct (p x); by constructor.
Qed.

Lemma has_subscribers_spec (t : Tag) :
  has_subscribers t = true <-> Subscribers t <> [].
Proof.
  unfold has_subscribers. destruct (Subscribers t); simpl; split; congruence.
Qed.

Lemma cleanEmptyTags_tags (w : World) :
  Tags (data (cleanEmptyTags w))
  = List.filter has_subscribers (Tags (data w)).
Proof.
  unfold cleanEmptyTags. rewrite saveData_data. simpl.
  rewrite fold_left_keep. simpl. apply List.filter_ext.
  intros t. unfold has_subscribers. by destruct (Subscribers t).
Qed.

Lemma cleanEmptyTags_writes (w : World) :
  writes (cleanEmptyTags w) = S (writes w).
Proof. unfold cleanEmptyTags. by rewrite saveData_writes. Qed.

Lemma cleanEmptyTags_written (w : World) :
  write_ok w = true ->
  tags_json (cleanEmptyTags w)
  = Some (MarshalIndent (data (cleanEmptyTags w))).
Proof.
  intros H. unfold cleanEmptyTags.
  set (w1 := set_data w _).
  destruct (saveData_written w1) as [-> _]; [done|].
  by rewrite saveData_data.
Qed.

Lemma list_lines_map (tags : list Tag) :
  list_lines tags
  = map (fun t => (Name t, length (Subscribers t), Description t)) tags.
Proof. unfold list_lines. by rewrite fold_left_emit. Qed.

Lemma stats_lines_map (tags : list Tag) :
  stats_lines tags = map (fun t => (Name t, length (Subscribers t))) tags.
Proof. unfold stats_lines. by rewrite fold_left_emit. Qed.

(** C10.  Pruning keeps exactly the tags that have a subscriber: what is
    kept is the old sequence filtered, so every kept tag is one of the old
    records with all six fields as they were, in the old relative order,
    and a tag is kept if and only if its subscriber list is not empty. *)
Theorem C10_prune_keeps_the_rest (w : World) :
  Tags (data (cleanEmptyTags w))
  = List.filter has_subscribers (Tags (data w))
  /\ sublist (Tags (data (cleanEmptyTags w))) (Tags (data w))
  /\ (forall t : Tag,
        In t (Tags (data (cleanEmptyTags w)))
        <-> In t (Tags (data w)) /\ Subscribers t <> []).
Proof.
  rewrite cleanEmptyTags_tags. split; [done|]. split.
  - apply filter_sublist.
  - intros t. rewrite filter_In, has_subscribers_spec. tauto.
Qed.

Lemma handle_mt_world (sender : User) (w : World) :
  snd (handle_mt sender w) = w.
Proof. unfold handle_mt. by destruct (fold_left _ _ _). Qed.

(** C9.  /mt leaves the whole process state as it was, the tags, the file
    and the count of writes included; a tag without subscribers is still
    there after /mt, and is gone after /lt and after either /stats. *)
Theorem C9_my_tags_changes_nothing (sender : User) (w : World) :
  snd (handle_mt sender w) = w
  /\ (forall t : Tag,
        In t (Tags (data w)) -> Subscribers t = [] ->
        In t (Tags (data (snd (handle_mt sender w))))
        /\ ~ In t (Tags (data (snd (handle_lt w))))
        /\ ~ In t (Tags (data (snd (Part000.handle_stats w))))
        /\ ~ In t (Tags (data (snd (Main.handle_stats w))))).
Proof.
  split; [apply handle_mt_world|].
  intros t Hin Hsub. rewrite handle_mt_world. split; [done|].
  assert (~ In t (Tags (data (cleanEmptyTags w)))) as Hout.
  { rewrite cleanEmptyTags_tags, filter_In, has_subscribers_spec. tauto. }
  unfold handle_lt, Part000.handle_stats, Main.handle_stats.
  destruct (length (Tags (data (cleanEmptyTags w))) =? 0)%nat; simpl; tauto.
Qed.

(** C7.  /lt, and /stats in both files, prune first: the tags left are
    the old ones that have a subscriber, none of them is empty,
    [saveData] has been called once (whether or not a tag was removed) so
    that a disk that takes the write holds the pruned state, and the reply
    has one entry for each tag left, in storage order. *)
Theorem C7_list_and_stats_prune_first (w : World) :
  let kept := List.filter has_subscribers (Tags (data w)) in
  (Tags (data (snd (handle_lt w))) = kept
   /\ Forall (fun t => Subscribers t <> []) (Tags (data (snd (handle_lt w))))
   /\ writes (snd (handle_lt w)) = S (writes w)
   /\ (write_ok w = true ->
       tags_json (snd (handle_lt w))
       = Some (MarshalIndent (data (snd (handle_lt w)))))
   /\ listed (fst (handle_lt w))
      = map (fun t => (Name t, length (Subscribers t), Description t)) kept)
  /\ (Tags (data (snd (Part000.handle_stats w))) = kept
      /\ writes (snd (Part000.handle_stats w)) = S (writes w)
      /\ (write_ok w = true ->
          tags_json (snd (Part000.handle_stats w))
          = Some (MarshalIndent (data (snd (Part000.handle_stats w)))))
      /\ counted (fst (Part000.handle_stats w))
         = map (fun t => (Name t, length (Subscribers t))) kept)
  /\ (Tags (data (snd (Main.handle_stats w))) = kept
      /\ writes (snd (Main.handle_stats w)) = S (writes w)
      /\ (write_ok w = true ->
          tags_json (snd (Main.handle_stats w))
          = Some (MarshalIndent (data (snd (Main.handle_stats w)))))
      /\ counted (fst (Main.handle_stats w))
         = map (fun t => (Name t, length (Subscribers t))) kept).
Proof.
  intros kept.
  pose proof (cleanEmptyTags_tags w) as Ht. fold kept in Ht.
  pose proof (cleanEmptyTags_writes w) as Hw.
  pose proof (cleanEmptyTags_written w) as Hf.
  assert (Forall (fun t => Subscribers t <> []) kept) as Hne.
  { apply List.Forall_forall. intros t Hin. unfold kept in Hin.
    apply filter_In in Hin as [_ Hin]. by apply has_subscribers_spec. }
  unfold handle_lt, Part000.handle_stats, Main.handle_stats.
  destruct (length (Tags (data (cleanEmptyTags w))) =? 0)%nat eqn:Hlen;
    simpl; rewrite ?Ht, ?list_lines_map, ?stats_lines_map, ?Ht.
  - apply Nat.eqb_eq in Hlen. rewrite Ht in Hlen.
    destruct kept; [simpl|discriminate]. repeat split; auto.
  - repeat split; auto.
Qed.

(** ** [findTag] *)

Section Lookup.

Variable ToLower : string -> string.

Lemma findTag_from_None (n : string) (i : nat) (tags : list Tag) :
  findTag_from ToLower n i tags = None
  <-> Forall (fun t => ToLower (Name t) <> n) tags.
Proof.
  revert i; induction tags as [|t tags IH]; intros i; simpl.
  - split; [constructor|done].
  - destruct (String.eqb_spec (ToLower (Name t)) n) as [Heq|Hne].
    + split; [done|]. intros H. by inversion H.
    + rewrite IH. split; [by constructor|]. intros H. by inversion H.
Qed.

Lemma findTag_from_Some (n : string) (i j : nat) (tags : list Tag) (t : Tag) :
  findTag_from ToLower n i tags = Some (j, t) ->
  (i <= j)%nat /\ tags !! (j - i)%nat = Some t /\ ToLower (Name t) = n.
Proof.
  revert i; induction tags as [|t0 tags IH]; intros i; simpl; [done|].
  destruct (String.eqb_spec (ToLower (Name t0)) n) as [Heq|Hne].
  - intros [= <- <-]. rewrite Nat.sub_diag. auto.
  - intros H. apply IH in H as (Hle & Hl & Hn).
    split; [lia|]. split; [|done].
    replace (j - i)%nat with (S (j - S i)) by lia. done.
Qed.

Lemma findTag_from_app (n : string) (i : nat) (l1 l2 : list Tag) :
  findTag_from ToLower n i l1 = None ->
  findTag_from ToLower n i (l1 ++ l2)
  = findTag_from ToLower n (i + length l1) l2.
Proof.
  revert i; induction l1 as [|t l1 IH]; intros i; simpl.
  - intros _. by rewrite Nat.add_0_r.
  - destruct (String.eqb (ToLower (Name t)) n); [done|].
    intros H. rewrite (IH _ H). f_equal. lia.
Qed.

Lemma findTag_from_insert (n : string) (i j : nat) (tags : list Tag)
  (t t' : Tag) :
  findTag_from ToLower n i tags = Some (j, t) ->
  Name t' = Name t ->
  findTag_from ToLower n i (<[(j - i)%nat := t']> tags) = Some (j, t').
Proof.
  intros H Hname. revert i H.
  induction tags as [|t0 tags IH]; intros i; simpl; [done|].
  destruct (String.eqb (ToLower (Name t0)) n) eqn:Heq.
  - intros [= <- <-]. rewrite Nat.sub_diag. simpl.
    by rewrite Hname, Heq.
  - intros H. pose proof (findTag_from_Some _ _ _ _ _ H) as (Hle & _ & _).
    replace (j - i)%nat with (S (j - S i)) by lia. simpl.
    rewrite Heq. by apply IH.
Qed.

Lemma findTag_None (q : string) (d : Data) :
  findTag ToLower q d = None
  <-> Forall (fun t => ToLower (Name t) <> ToLower q) (Tags d).
Proof. apply findTag_from_None. Qed.

Lemma findTag_Some (q : string) (d : Data) (i : nat) (t : Tag) :
  findTag ToLower q d = Some (i, t) ->
  Tags d !! i = Some t /\ ToLower (Name t) = ToLower q.
Proof.
  intros H. apply findTag_from_Some in H as (_ & Hl & Hn).
  by rewrite Nat.sub_0_r in Hl.
Qed.

Lemma findTag_same_fold (q name : string) (d : Data) :
  ToLower q = ToLower name ->
  findTag ToLower q d = findTag ToLower name d.
Proof. unfold findTag. by intros ->. Qed.

Lemma findTag_appended (name : string) (tags : list Tag) (t : Tag) :
  findTag ToLower name {| Tags := tags |} = None ->
  ToLower (Name t) = ToLower name ->
  findTag ToLower name {| Tags := tags ++ [t] |} = Some (length tags, t).
Proof.
  intros Hnone Hname. unfold findTag in *. simpl in *.
  rewrite findTag_from_app by done. simpl.
  by rewrite Hname, String.eqb_refl.
Qed.

Lemma remove_named_filter (tag : Tag) (tags : list Tag) :
  remove_named ToLower tag tags
  = List.filter
      (fun t => negb (String.eqb (ToLower (Name t)) (ToLower (Name tag))))
      tags.
Proof. unfold remove_named. by rewrite fold_left_keep. Qed.

Lemma findTag_removed (name : string) (tag : Tag) (tags : list Tag) :
  ToLower (Name tag) = ToLower name ->
  findTag ToLower name {| Tags := remove_named ToLower tag tags |} = None.
Proof.
  intros Hname. apply findTag_None. simpl. rewrite remove_named_filter.
  apply List.Forall_forall. intros t Hin.
  apply filter_In in Hin as [_ Hin]. rewrite Hname in Hin.
  by destruct (String.eqb_spec (ToLower (Name t)) (ToLower name)).
Qed.

End Lookup.

Lemma data_eta (d : Data) : {| Tags := Tags d |} = d.
Proof. by destruct d. Qed.

Lemma subscribed_count (id : Z) (subs : list Subscriber) :
  subscribed id subs = negb (count_id id subs =? 0)%nat.
Proof.
  unfold count_id. induction subs as [|s subs IH]; simpl; [done|].
  by destruct (ID s =? id).
Qed.

Lemma count_id_app (id : Z) (l1 l2 : list Subscriber) :
  count_id id (l1 ++ l2) = (count_id id l1 + count_id id l2)%nat.
Proof. unfold count_id. by rewrite List.filter_app, length_app. Qed.

(** ** /ct followed by a lookup, /st twice *)

Section CreateAndSubscribe.

Variable ToLower : string -> string.

Lemma Part000_created (tagName : string) (rest : list string) (sender : User)
  (now : Time) (w : World) (u n d : string) :
  fst (Part000.handle_ct ToLower (tagName :: rest) sender now w)
  = Created u n d ->
  findTag ToLower tagName (data w) = None
  /\ data (snd (Part000.handle_ct ToLower (tagName :: rest) sender now w))
     = {| Tags := Tags (data w) ++ [new_tag tagName rest sender now] |}.
Proof.
  unfold Part000.handle_ct.
  destruct (50 <? String.length tagName)%nat; [done|].
  destruct (findTag ToLower tagName (data w)); [done|].
  destruct (10 <=? _)%nat; [done|].
  destruct ((0 <? length rest)%nat && _); [done|].
  intros _. split; [done|]. simpl. by rewrite saveData_data.
Qed.

Lemma Main_created (tagName : string) (rest : list string) (sender : User)
  (now : Time) (w : World) (u n d : string) :
  fst (Main.handle_ct ToLower (tagName :: rest) sender now w)
  = Created u n d ->
  findTag ToLower tagName (data w) = None
  /\ data (snd (Main.handle_ct ToLower (tagName :: rest) sender now w))
     = {| Tags := Tags (data w) ++ [new_tag tagName rest sender now] |}.
Proof.
  unfold Main.handle_ct.
  destruct (findTag ToLower tagName (data w)); [done|].
  intros _. split; [done|]. simpl. by rewrite saveData_data.
Qed.

Lemma found_after_append (tagName q : string) (rest : list string)
  (sender : User) (now : Time) (d : Data) :
  ToLower q = ToLower tagName ->
  findTag ToLower tagName d = None ->
  findTag ToLower q
    {| Tags := Tags d ++ [new_tag tagName rest sender now] |}
  = Some (length (Tags d), new_tag tagName rest sender now).
Proof.
  intros Hq Hnone.
  rewrite (findTag_same_fold ToLower q tagName) by done.
  apply findTag_appended; [by rewrite data_eta|done].
Qed.

(** C6.  After a /ct that created a tag, in either file, a lookup under
    any name that lower-cases to the same text as the created name finds
    the tag just built, at the end of the storage; a lookup finds nothing
    exactly when no stored name lower-cases to the text of the query, and
    what it finds is a stored tag of such a name. *)
Theorem C6_create_then_find (tagName : string) (rest : list string)
  (sender : User) (now : Time) (w : World) (q : string) :
  ToLower q = ToLower tagName ->
  (forall u n d : string,
     fst (Part000.handle_ct ToLower (tagName :: rest) sender now w)
     = Created u n d ->
     findTag ToLower q
       (data (snd (Part000.handle_ct ToLower (tagName :: rest) sender now w)))
     = Some (length (Tags (data w)), new_tag tagName rest sender now))
  /\ (forall u n d : string,
        fst (Main.handle_ct ToLower (tagName :: rest) sender now w)
        = Created u n d ->
        findTag ToLower q
          (data (snd (Main.handle_ct ToLower (tagName :: rest) sender now w)))
        = Some (length (Tags (data w)), new_tag tagName rest sender now))
  /\ (forall d : Data,
        findTag ToLower q d = None
        <-> Forall (fun t => ToLower (Name t) <> ToLower q) (Tags d))
  /\ (forall (d : Data) (i : nat) (t : Tag),
        findTag ToLower q d = Some (i, t) ->
        Tags d !! i = Some t /\ ToLower (Name t) = ToLower q).
Proof.
  intros Hq. repeat split.
  - intros u n d H. apply Part000_created in H as [Hnone ->].
    by apply found_after_append.
  - intros u n d H. apply Main_created in H as [Hnone ->].
    by apply found_after_append.
  - by apply findTag_None.
  - by apply findTag_None.
  - by apply findTag_Some in H as [? ?].
  - by apply findTag_Some in H as [? ?].
Qed.

Lemma handle_st_again (name : string) (rest : list string) (sender : User)
  (w : World) (i : nat) (tag : Tag) :
  findTag ToLower name (data w) = Some (i, tag) ->
  subscribed (User_ID sender) (Subscribers tag) = true ->
  handle_st ToLower (name :: rest) sender w = (AlreadySubscribed, w).
Proof. intros Hf Hs. unfold handle_st. by rewrite Hf, Hs. Qed.

Lemma handle_st_first (name : string) (rest : list string) (sender : User)
  (w : World) (i : nat) (tag : Tag) :
  findTag ToLower name (data w) = Some (i, tag) ->
  subscribed (User_ID sender) (Subscribers tag) = false ->
  exists username : string,
    let tag' :=
      with_Subscribers tag
        (Subscribers tag
           ++ [{| ID := User_ID sender; Username := username |}]) in
    handle_st ToLower (name :: rest) sender w
    = (Subscribed (Name tag),
       fst (saveData
              (set_data w {| Tags := <[i := tag']> (Tags (data w)) |})))
    /\ findTag ToLower name
         {| Tags := <[i := tag']> (Tags (data w)) |} = Some (i, tag').
Proof.
  intros Hf Hs. unfold handle_st. rewrite Hf, Hs. eexists. split; [done|].
  unfold findTag in *. simpl.
  rewrite <- (Nat.sub_0_r i) at 1.
  by apply findTag_from_insert with (t := tag).
Qed.

(** C4.  Where /st finds the tag, a second /st of the same sender for the
    same tag answers that the sender is subscribed already and leaves the
    whole state, file and write count included, as the first call left it.
    After the first call the tag holds the sender's id once if it held it
    not at all, and as often as before otherwise: exactly once whenever
    the tag had no duplicate of that id.  The first call subscribes when
    the id was not there. *)
Theorem C4_subscribe_twice (name : string) (rest rest' : list string)
  (sender sender' : User) (w : World) (i : nat) (tag : Tag) :
  findTag ToLower name (data w) = Some (i, tag) ->
  User_ID sender' = User_ID sender ->
  let w1 := snd (handle_st ToLower (name :: rest) sender w) in
  handle_st ToLower (name :: rest') sender' w1 = (AlreadySubscribed, w1)
  /\ (exists tag1 : Tag,
        findTag ToLower name (data w1) = Some (i, tag1)
        /\ Name tag1 = Name tag
        /\ count_id (User_ID sender) (Subscribers tag1)
           = Nat.max 1 (count_id (User_ID sender) (Subscribers tag))
        /\ ((count_id (User_ID sender) (Subscribers tag) <= 1)%nat ->
            count_id (User_ID sender) (Subscribers tag1) = 1%nat))
  /\ (subscribed (User_ID sender) (Subscribers tag) = false ->
      fst (handle_st ToLower (name :: rest) sender w)
      = Subscribed (Name tag)).
Proof.
  intros Hf Hid w1. subst w1.
  destruct (subscribed (User_ID sender) (Subscribers tag)) eqn:Hs.
  - rewrite (handle_st_again name rest sender w i tag) by done. simpl.
    split; [|split; [|done]].
    + apply (handle_st_again name rest' sender' w i tag); [done|].
      by rewrite Hid.
    + exists tag. split; [done|]. split; [done|].
      rewrite subscribed_count in Hs.
      destruct (Nat.eqb_spec (count_id (User_ID sender) (Subscribers tag)) 0);
        [done|lia].
  - destruct (handle_st_first name rest sender w i tag Hf Hs)
      as (username & -> & Hf'). simpl.
    set (tag' := with_Subscribers tag _) in *.
    rewrite subscribed_count in Hs.
    destruct (Nat.eqb_spec (count_id (User_ID sender) (Subscribers tag)) 0)
      as [Hzero|]; [|done].
    assert (count_id (User_ID sender) (Subscribers tag') = 1%nat) as Hone.
    { subst tag'. simpl. rewrite count_id_app, Hzero.
      unfold count_id. simpl. by rewrite Z.eqb_refl. }
    split; [|split; [|done]].
    + apply (handle_st_again name rest' sender' _ i tag').
      * by rewrite saveData_data.
      * rewrite Hid, subscribed_count, Hone. done.
    + exists tag'. rewrite saveData_data, Hone, Hzero. done.
Qed.

End CreateAndSubscribe.

(** ** /dt *)

Section Delete.

Variable ToLower : string -> string.

Lemma deleted_state (name : string) (tag : Tag) (w : World) :
  ToLower (Name tag) = ToLower name ->
  let w' :=
    fst (saveData
           (set_data w
              {| Tags := remove_named ToLower tag (Tags (data w)) |})) in
  Tags (data w')
  = List.filter
      (fun t => negb (String.eqb (ToLower (Name t)) (ToLower name)))
      (Tags (data w))
  /\ (forall q : string,
        ToLower q = ToLower name -> findTag ToLower q (data w') = None).
Proof.
  intros Hname w'. subst w'. rewrite saveData_data. simpl. split.
  - by rewrite remove_named_filter, Hname.
  - intros q Hq. apply findTag_removed. congruence.
Qed.

(** C5.  In part_000 /dt answers that the tag is not found when no stored
    name matches; it refuses, changing nothing, a sender who is neither the
    creator of the tag found nor an admin; otherwise it removes every tag
    whose name matches, so that a lookup of the name finds nothing
    afterwards.  main.go's /dt is the same handler with the admin flag
    never set: it has no admin test. *)
Theorem C5_delete_rights (name : string) (rest : list string) (sender : User)
  (isAdmin : bool) (w : World) :
  (findTag ToLower name (data w) = None ->
   Part000.handle_dt ToLower (name :: rest) sender isAdmin w
   = (TagNotFound, w))
  /\ (forall (i : nat) (tag : Tag),
        findTag ToLower name (data w) = Some (i, tag) ->
        (CreatorID tag <> User_ID sender -> isAdmin = false ->
         Part000.handle_dt ToLower (name :: rest) sender isAdmin w
         = (NotAllowed, w))
        /\ (CreatorID tag = User_ID sender \/ isAdmin = true ->
            let r := Part000.handle_dt ToLower (name :: rest) sender isAdmin w in
            fst r = Deleted (Name tag)
            /\ Tags (data (snd r))
               = List.filter
                   (fun t =>
                      negb (String.eqb (ToLower (Name t)) (ToLower name)))
                   (Tags (data w))
            /\ (forall q : string,
                  ToLower q = ToLower name ->
                  findTag ToLower q (data (snd r)) = None)))
  /\ Main.handle_dt ToLower (name :: rest) sender w
     = Part000.handle_dt ToLower (name :: rest) sender false w.
Proof.
  unfold Part000.handle_dt, Main.handle_dt.
  split; [by intros ->|]. split.
  - intros i tag Hf. rewrite Hf.
    pose proof (findTag_Some ToLower _ _ _ _ Hf) as [_ Hname].
    split.
    + intros Hne ->. by destruct (Z.eqb_spec (CreatorID tag) (User_ID sender)).
    + intros Hor.
      assert (negb (CreatorID tag =? User_ID sender) && negb isAdmin = false)
        as ->.
      { destruct Hor as [->| ->]; [by rewrite Z.eqb_refl|].
        apply andb_false_r. }
      simpl. split; [done|]. by apply deleted_state.
  - destruct (findTag ToLower name (data w)) as [[i tag]|]; [|done].
    by rewrite andb_true_r.
Qed.

End Delete.

(** ** /ct *)

Section Create.

Variable ToLower : string -> string.

Lemma findTag_exists (name : string) (d : Data) :
  Exists (fun t => ToLower (Name t) = ToLower name) (Tags d)
  <-> findTag ToLower name d <> None.
Proof.
  rewrite findTag_None. split.
  - intros Hex Hall. apply List.Exists_exists in Hex as (t & Hin & Ht).
    rewrite List.Forall_forall in Hall. by apply (Hall t).
  - intros Hn. apply List.Exists_exists.
    induction (Tags d) as [|t l IH]; [by destruct Hn|].
    destruct (String.eqb_spec (ToLower (Name t)) (ToLower name)) as [He|Hne].
    + exists t. split; [by left|done].
    + destruct IH as (t' & Hin & Ht').
      * intros Hall. apply Hn. by constructor.
      * exists t'. split; [by right|done].
Qed.

Lemma userTags_count (id : Z) (tags : list Tag) :
  fold_left
    (fun userTags tag => if CreatorID tag =? id then S userTags else userTags)
    tags 0%nat
  = tags_of id tags.
Proof. unfold tags_of. by rewrite fold_left_count. Qed.

Lemma characters_le_length (s : string) :
  (characters s <= String.length s)%nat.
Proof.
  induction s as [|c s IH]; simpl; [lia|].
  destruct (continuation c); lia.
Qed.

(** C1, as the two files have it.  In part_000 /ct fails, leaving the
    state as it was, when no name is given and when the name is longer than
    50 characters.  For a name that fits 50 bytes, as every name of at most
    50 single-byte characters does, its further tests run in this order:
    that no stored name matches it, that the sender has created fewer than
    10 tags, and that the description is not too long; the first that
    fails decides the reply and the state is left as it was.  A
    description longer than 100 characters fails; with one that fits 100
    bytes the new tag, without subscribers, is appended and announced.
    Nothing is said of a name of at most 50 characters that takes more
    than 50 bytes, nor of a description of at most 100 characters that
    takes more than 100 bytes.  In main.go /ct tests only that a name is
    given and that no stored name matches it. *)
Theorem C1_create_checks_in_order (tagName : string) (rest : list string)
  (sender : User) (now : Time) (w : World) :
  let tag := new_tag tagName rest sender now in
  let duplicate :=
    Exists (fun t => ToLower (Name t) = ToLower tagName) (Tags (data w)) in
  let created (r : Reply * World) :=
    fst r = Created (User_Username sender) tagName (Description tag)
    /\ Tags (data (snd r)) = Tags (data w) ++ [tag]
    /\ Subscribers tag = [] in
  Part000.handle_ct ToLower [] sender now w = (Usage, w)
  /\ ((50 < characters tagName)%nat ->
      Part000.handle_ct ToLower (tagName :: rest) sender now w
      = (NameTooLong, w))
  /\ ((String.length tagName <= 50)%nat -> duplicate ->
      Part000.handle_ct ToLower (tagName :: rest) sender now w
      = (TagExists, w))
  /\ ((String.length tagName <= 50)%nat -> ~ duplicate ->
      (10 <= tags_of (User_ID sender) (Tags (data w)))%nat ->
      Part000.handle_ct ToLower (tagName :: rest) sender now w
      = (LimitReached, w))
  /\ ((String.length tagName <= 50)%nat -> ~ duplicate ->
      (tags_of (User_ID sender) (Tags (data w)) < 10)%nat ->
      (100 < characters (Description tag))%nat ->
      Part000.handle_ct ToLower (tagName :: rest) sender now w
      = (DescriptionTooLong, w))
  /\ ((String.length tagName <= 50)%nat -> ~ duplicate ->
      (tags_of (User_ID sender) (Tags (data w)) < 10)%nat ->
      (String.length (Description tag) <= 100)%nat ->
      created (Part000.handle_ct ToLower (tagName :: rest) sender now w))
  /\ Main.handle_ct ToLower [] sender now w = (Usage, w)
  /\ (duplicate ->
      Main.handle_ct ToLower (tagName :: rest) sender now w = (TagExists, w))
  /\ (~ duplicate ->
      created (Main.handle_ct ToLower (tagName :: rest) sender now w)).
Proof.
  intros tag duplicate created. subst duplicate created.
  pose proof (characters_le_length tagName) as Hname.
  pose proof (characters_le_length (Description tag)) as Hdescr.
  unfold Part000.handle_ct, Main.handle_ct.
  rewrite userTags_count, findTag_exists.
  assert ((0 <? length rest)%nat && (100 <? String.length (Description tag))%nat
          = (100 <? String.length (Description tag))%nat) as Hdesc.
  { subst tag. destruct rest; simpl; done. }
  change (match rest with [] => "" | _ :: _ => Join rest " " end)
    with (Description tag).
  rewrite Hdesc.
  destruct (findTag ToLower tagName (data w)) as [[i t]|] eqn:Hf;
    destruct (Nat.ltb_spec 50 (String.length tagName));
    destruct (Nat.leb_spec 10 (tags_of (User_ID sender) (Tags (data w))));
    destruct (Nat.ltb_spec 100 (String.length (Description tag)));
    repeat apply conj; intros;
    try done; try lia; try (exfalso; auto; fail);
    simpl; by rewrite saveData_data.
Qed.

End Create.

(** ** The result of [saveData] in the handlers *)

Lemma saveData_stored (w : World) :
  write_ok w = true ->
  tags_json (fst (saveData w)) = Some (MarshalIndent (data (fst (saveData w)))).
Proof.
  intros H. rewrite saveData_data. by destruct (saveData_written w H).
Qed.

Ltac save_cases :=
  repeat apply conj; intros; simpl in *;
  try (by apply saveData_stored);
  rewrite ?saveData_writes, ?saveData_data; try done.

Section SaveDropped.

Variable ToLower : string -> string.

Lemma Part000_ct_drops (args : list string) (sender : User) (now : Time) :
  save_result_dropped (Part000.handle_ct ToLower args sender now).
Proof.
  intros w. unfold Part000.handle_ct. cbn [with_write_ok data].
  destruct args as [|tagName rest]; [save_cases|].
  destruct (50 <? String.length tagName)%nat; [save_cases|].
  destruct (findTag ToLower tagName (data w)); [save_cases|].
  destruct (10 <=? _)%nat; [save_cases|].
  destruct ((0 <? length rest)%nat && _); save_cases.
Qed.

Lemma Main_ct_drops (args : list string) (sender : User) (now : Time) :
  save_result_dropped (Main.handle_ct ToLower args sender now).
Proof.
  intros w. unfold Main.handle_ct. cbn [with_write_ok data].
  destruct args as [|tagName rest]; [save_cases|].
  destruct (findTag ToLower tagName (data w)); save_cases.
Qed.

Lemma st_drops (args : list string) (sender : User) :
  save_result_dropped (handle_st ToLower args sender).
Proof.
  intros w. unfold handle_st. cbn [with_write_ok data].
  destruct args as [|arg0 rest]; [save_cases|].
  destruct (findTag ToLower arg0 (data w)) as [[i tag]|]; [|save_cases].
  destruct (subscribed _ _); save_cases.
Qed.

Lemma Part000_dt_drops (args : list string) (sender : User) (isAdmin : bool) :
  save_result_dropped (Part000.handle_dt ToLower args sender isAdmin).
Proof.
  intros w. unfold Part000.handle_dt. cbn [with_write_ok data].
  destruct args as [|arg0 rest]; [save_cases|].
  destruct (findTag ToLower arg0 (data w)) as [[i tag]|]; [|save_cases].
  destruct (negb _ && _); save_cases.
Qed.

Lemma Main_dt_drops (args : list string) (sender : User) :
  save_result_dropped (Main.handle_dt ToLower args sender).
Proof.
  intros w. unfold Main.handle_dt. cbn [with_write_ok data].
  destruct args as [|arg0 rest]; [save_cases|].
  destruct (findTag ToLower arg0 (data w)) as [[i tag]|]; [|save_cases].
  destruct (negb _); save_cases.
Qed.

(** C2, as the code has it.  Every handler that changes [data] (/ct and
    /dt of both files, /st) calls [saveData] exactly once after the change
    and before it replies, and a write that succeeds stores the new state;
    the result of [saveData] is dropped, so the reply and the in-memory
    state are the same whether the write succeeds or fails.  Pruning calls
    [saveData] once on every call and returns nothing at all. *)
Theorem C2_save_is_called_and_its_result_dropped (args : list string)
  (sender : User) (now : Time) (isAdmin : bool) :
  save_result_dropped (Part000.handle_ct ToLower args sender now)
  /\ save_result_dropped (Main.handle_ct ToLower args sender now)
  /\ save_result_dropped (handle_st ToLower args sender)
  /\ save_result_dropped (Part000.handle_dt ToLower args sender isAdmin)
  /\ save_result_dropped (Main.handle_dt ToLower args sender)
  /\ (forall (w : World) (b : bool),
        writes (cleanEmptyTags w) = S (writes w)
        /\ data (cleanEmptyTags (with_write_ok b w))
           = data (cleanEmptyTags w)
        /\ fst (handle_lt (with_write_ok b w)) = fst (handle_lt w)).
Proof.
  repeat apply conj.
  - apply Part000_ct_drops.
  - apply Main_ct_drops.
  - apply st_drops.
  - apply Part000_dt_drops.
  - apply Main_dt_drops.
  - intros w b.
    assert (data (cleanEmptyTags (with_write_ok b w))
            = data (cleanEmptyTags w)) as Hd.
    { unfold cleanEmptyTags. by rewrite !saveData_data. }
    repeat apply conj; [apply cleanEmptyTags_writes|done|].
    unfold handle_lt. rewrite Hd.
    by destruct (length (Tags (data (cleanEmptyTags w))) =? 0)%nat.
Qed.

End SaveDropped.

(** ** The mention handler *)

Section MentionHandler.

Variable ToLower : string -> string.

Lemma mentions_of_names (tag : Tag) (mentions : list string) :
  mentions_of tag mentions = mentions ++ at_names (Subscribers tag).
Proof.
  unfold mentions_of, at_names.
  by rewrite (fold_left_keep_emit mentionable (fun s => "@" +:+ Username s)).
Qed.

Lemma at_names_In (subs : list Subscriber) (n : string) :
  In n (at_names subs)
  <-> exists s : Subscriber,
        In s subs /\ n = "@" +:+ Username s
        /\ Username s <> "" /\ Username s <> placeholder (ID s).
Proof.
  unfold at_names. rewrite in_map_iff. split.
  - intros (s & <- & Hin). apply filter_In in Hin as [Hin Hm].
    exists s. unfold mentionable in Hm.
    apply andb_true_iff in Hm as [H1 H2].
    destruct (String.eqb_spec (Username s) ""); [done|].
    by destruct (String.eqb_spec (Username s) (placeholder (ID s))).
  - intros (s & Hin & -> & H1 & H2). exists s. split; [done|].
    apply filter_In. split; [done|]. unfold mentionable.
    destruct (String.eqb_spec (Username s) ""); [done|].
    by destruct (String.eqb_spec (Username s) (placeholder (ID s))).
Qed.

Lemma Main_responses (matches : list string) (w : World) :
  blocks (fst (Main.handle_text ToLower matches w))
  = flat_map (block_for ToLower (data w)) matches.
Proof.
  unfold Main.handle_text.
  rewrite (fold_left_flat _ (block_for ToLower (data w))).
  - simpl. by destruct (flat_map _ _).
  - intros acc c. unfold block_for, names_for.
    destruct (findTag ToLower c (data w)) as [[i tag]|];
      [|by rewrite app_nil_r].
    rewrite mentions_of_names. simpl.
    destruct (at_names (Subscribers tag)); simpl; [by rewrite app_nil_r|done].
Qed.

Lemma Part000_mentions (cs : list string) (w : World) :
  mentioned (fst (Part000.handle_text ToLower (map (String "#") cs) w))
  = flat_map (names_for ToLower (data w)) cs.
Proof.
  unfold Part000.handle_text.
  rewrite (fold_left_flat _
             (fun word =>
                match word with
                | String "#"%char c => names_for ToLower (data w) c
                | _ => []
                end)).
  - simpl. rewrite flat_map_concat_map, map_map, <- flat_map_concat_map.
    by destruct (flat_map _ _).
  - intros acc word. unfold names_for.
    destruct word as [|a c]; [by rewrite app_nil_r|].
    destruct a as [[] [] [] [] [] [] [] []]; try by rewrite app_nil_r.
    destruct (findTag ToLower c (data w)) as [[i tag]|];
      [|by rewrite app_nil_r].
    apply mentions_of_names.
Qed.

(** C8.  The mention handler goes through the candidate names in input
    order and handles each occurrence on its own.  In main.go the reply
    holds, for each candidate that names a stored tag with a mentionable
    subscriber, one block with the candidate and the mentions of that tag,
    and nothing for the other candidates; in part_000 the reply holds the
    mentions of the candidates one after another.  The mentions of a tag
    are its subscribers' user names, each behind an at sign, that are
    neither empty nor the placeholder of the subscriber's id, in storage
    order.  The state is left as it was. *)
Theorem C8_mentions_follow_the_candidates (candidates : list string)
  (w : World) :
  blocks (fst (Main.handle_text ToLower candidates w))
  = flat_map (block_for ToLower (data w)) candidates
  /\ mentioned
       (fst (Part000.handle_text ToLower (map (String "#") candidates) w))
     = flat_map (names_for ToLower (data w)) candidates
  /\ snd (Main.handle_text ToLower candidates w) = w
  /\ snd (Part000.handle_text ToLower (map (String "#") candidates) w) = w
  /\ (forall c : string,
        findTag ToLower c (data w) = None ->
        block_for ToLower (data w) c = []
        /\ names_for ToLower (data w) c = [])
  /\ (forall (c : string) (i : nat) (tag : Tag),
        findTag ToLower c (data w) = Some (i, tag) ->
        names_for ToLower (data w) c
        = map (fun s => "@" +:+ Username s)
            (List.filter mentionable (Subscribers tag))
        /\ (List.filter mentionable (Subscribers tag) = [] ->
            block_for ToLower (data w) c = [])
        /\ (List.filter mentionable (Subscribers tag) <> [] ->
            block_for ToLower (data w) c
            = [(names_for ToLower (data w) c, c)])
        /\ (forall n : string,
              In n (names_for ToLower (data w) c)
              <-> exists s : Subscriber,
                    In s (Subscribers tag) /\ n = "@" +:+ Username s
                    /\ Username s <> ""
                    /\ Username s <> placeholder (ID s))).
Proof.
  repeat apply conj.
  - apply Main_responses.
  - apply Part000_mentions.
  - unfold Main.handle_text. by destruct (0 <? _)%nat.
  - unfold Part000.handle_text. by destruct (0 <? _)%nat.
  - intros c Hf. unfold block_for, names_for. by rewrite Hf.
  - intros c i tag Hf. unfold block_for, names_for. rewrite Hf.
    repeat apply conj.
    + done.
    + unfold at_names. by intros ->.
    + unfold at_names.
      destruct (List.filter mentionable (Subscribers tag)); done.
    + apply at_names_In.
Qed.

End MentionHandler.

(** ** The file: marshalling, unmarshalling and the two [loadData] *)

#[local] Arguments rfc3339 : simpl never.
#[local] Arguments int64_ok : simpl never.

Lemma elements_map {T : Type} (elem : json -> option T) (enc : T -> json)
  (l : list T) :
  (forall x, In x l -> elem (enc x) = Some x) ->
  elements elem (map enc l) = Some l.
Proof.
  induction l as [|x l IH]; intros H; simpl; [done|].
  rewrite (H x) by (by left). rewrite IH; [done|].
  intros y Hy. apply H. by right.
Qed.

Lemma into_Subscriber_Marshal (s cur : Subscriber) :
  int64_ok (ID s) = true ->
  into_Subscriber (Marshal_Subscriber s) cur = Some s.
Proof.
  intros H. unfold into_Subscriber, Marshal_Subscriber. cbn.
  rewrite H. cbn. by destruct s.
Qed.

Lemma into_Tag_Marshal (t cur : Tag) :
  valid_Tag t = true -> into_Tag (Marshal_Tag t) cur = Some t.
Proof.
  unfold valid_Tag. intros H.
  apply andb_true_iff in H as [H Hs]. apply andb_true_iff in H as [Hc Ht].
  unfold into_Tag, Marshal_Tag. cbn. rewrite Hc. cbn.
  rewrite (elements_map _ Marshal_Subscriber).
  - cbn. rewrite Ht. cbn. by destruct t.
  - intros s Hin. apply into_Subscriber_Marshal.
    rewrite forallb_forall in Hs. by apply Hs.
Qed.

Lemma Unmarshal_Marshal (d cur : Data) :
  valid_Data d = true -> Unmarshal_Data (MarshalIndent d) cur = Some d.
Proof.
  unfold valid_Data. intros H. unfold Unmarshal_Data, MarshalIndent. cbn.
  rewrite (elements_map _ Marshal_Tag).
  - cbn. by destruct d.
  - intros t Hin. apply into_Tag_Marshal.
    rewrite forallb_forall in H. by apply H.
Qed.

Lemma into_OldTag_Marshal (t cur : OldTag) :
  valid_OldTag t = true -> into_OldTag (Marshal_OldTag t) cur = Some t.
Proof.
  unfold valid_OldTag. intros H.
  apply andb_true_iff in H as [H Hs]. apply andb_true_iff in H as [Hc Ht].
  unfold into_OldTag, Marshal_OldTag. cbn. rewrite Hc. cbn.
  rewrite (elements_map _ JInt).
  - cbn. rewrite Ht. cbn. by destruct t.
  - intros n Hin. cbn. rewrite forallb_forall in Hs. by rewrite (Hs n).
Qed.

Lemma Unmarshal_legacy (d cur : OldData) :
  valid_OldData d = true ->
  Unmarshal_OldData (legacy_document d) cur = Some d.
Proof.
  unfold valid_OldData. intros H. unfold Unmarshal_OldData, legacy_document.
  cbn. rewrite (elements_map _ Marshal_OldTag).
  - cbn. by destruct d.
  - intros t Hin. apply into_OldTag_Marshal.
    rewrite forallb_forall in H. by apply H.
Qed.

Lemma convert_migrated (d : OldData) :
  Part000.convert d = map migrated (OldTags d).
Proof.
  unfold Part000.convert. rewrite fill_map. apply map_ext.
  intros t. unfold migrated. by rewrite fill_map.
Qed.

(** A legacy tag under the current schema: an id is not an object. *)
Lemma into_Tag_legacy (t : OldTag) :
  valid_OldTag t = true ->
  into_Tag (Marshal_OldTag t) zeroTag
  = match OldSubscribers t with
    | [] => Some (migrated t)
    | _ :: _ => None
    end.
Proof.
  unfold valid_OldTag. intros H.
  apply andb_true_iff in H as [H Hs]. apply andb_true_iff in H as [Hc Ht].
  unfold into_Tag, Marshal_OldTag, migrated. cbn. rewrite Hc. cbn.
  destruct (OldSubscribers t); cbn; [|done].
  rewrite Ht. done.
Qed.

Lemma elements_legacy (tags : list OldTag) :
  forallb valid_OldTag tags = true ->
  elements (fun e => into_Tag e zeroTag) (map Marshal_OldTag tags)
  = if forallb (fun t => (length (OldSubscribers t) =? 0)%nat) tags
    then Some (map migrated tags) else None.
Proof.
  induction tags as [|t tags IH]; intros H; [done|].
  simpl in H. apply andb_true_iff in H as [Ht H].
  cbn [map elements forallb]. rewrite (into_Tag_legacy t Ht).
  destruct (OldSubscribers t); simpl; [|done].
  rewrite (IH H).
  by destruct (forallb (fun t => (length (OldSubscribers t) =? 0)%nat) tags).
Qed.

Lemma Unmarshal_Data_legacy (d : OldData) (cur : Data) :
  valid_OldData d = true ->
  Unmarshal_Data (legacy_document d) cur
  = if forallb (fun t => (length (OldSubscribers t) =? 0)%nat) (OldTags d)
    then Some {| Tags := map migrated (OldTags d) |} else None.
Proof.
  unfold valid_OldData. intros H. unfold Unmarshal_Data, legacy_document.
  cbn. rewrite (elements_legacy _ H).
  by destruct
       (forallb (fun t => (length (OldSubscribers t) =? 0)%nat) (OldTags d)).
Qed.

Lemma valid_migrated (d : OldData) :
  valid_OldData d = true ->
  valid_Data {| Tags := map migrated (OldTags d) |} = true.
Proof.
  unfold valid_OldData, valid_Data. simpl.
  rewrite !forallb_forall. intros H t Hin.
  apply in_map_iff in Hin as (o & <- & Hin). specialize (H o Hin).
  unfold valid_OldTag in H. unfold valid_Tag, migrated. simpl.
  apply andb_true_iff in H as [H Hs]. rewrite H. simpl.
  rewrite forallb_forall in *. intros s Hs'.
  apply in_map_iff in Hs' as (id & <- & Hid). simpl. by apply Hs.
Qed.

Lemma migrated_placeholders (tags : list OldTag) (tag : Tag) (s : Subscriber) :
  In tag (map migrated tags) -> In s (Subscribers tag) ->
  Username s = placeholder (ID s).
Proof.
  intros Htag Hs. apply in_map_iff in Htag as (o & <- & _).
  simpl in Hs. by apply in_map_iff in Hs as (id & <- & _).
Qed.

Lemma no_ids_spec (tags : list OldTag) :
  forallb (fun t => (length (OldSubscribers t) =? 0)%nat) tags = true ->
  ~ List.Exists (fun t => OldSubscribers t <> []) tags.
Proof.
  rewrite forallb_forall. intros H Hex.
  apply List.Exists_exists in Hex as (t & Hin & Hne).
  specialize (H t Hin). by destruct (OldSubscribers t).
Qed.

Lemma load_after_save (w : World) (d0 : Data) :
  valid_Data (data w) = true -> write_ok w = true -> read_ok w = true ->
  Main.loadData (set_data (fst (saveData w)) d0) = (fst (saveData w), None)
  /\ (dotenv_ok w = true -> TELEGRAM_BOT_TOKEN w <> "" ->
      Part000.loadData (set_data (fst (saveData w)) d0)
      = (fst (saveData w), Return None)).
Proof.
  intros Hv Hw Hr.
  unfold Main.loadData, Part000.loadData, saveData, WriteFile.
  rewrite Hw. cbn -[MarshalIndent Unmarshal_Data]. rewrite Hr.
  cbn -[MarshalIndent Unmarshal_Data].
  rewrite (Unmarshal_Marshal _ d0 Hv). split; [done|].
  intros -> Htok. apply String.eqb_neq in Htok. rewrite Htok. done.
Qed.

Lemma load_legacy (w : World) (old : OldData) :
  read_ok w = true -> dotenv_ok w = true -> TELEGRAM_BOT_TOKEN w <> "" ->
  valid_OldData old = true ->
  tags_json w = Some (legacy_document old) ->
  write_ok w = true ->
  Part000.loadData w
  = if forallb (fun t => (length (OldSubscribers t) =? 0)%nat) (OldTags old)
    then (set_data w {| Tags := map migrated (OldTags old) |}, Return None)
    else (fst (saveData
                 (set_data w {| Tags := map migrated (OldTags old) |})),
          Return None).
Proof.
  intros Hr He Htok Hv Hfile Hw. apply String.eqb_neq in Htok.
  unfold Part000.loadData. rewrite He, Htok, Hfile, Hr.
  cbn [negb]. rewrite (Unmarshal_Data_legacy old _ Hv).
  destruct (forallb _ (OldTags old)); [done|].
  rewrite (Unmarshal_legacy old _ Hv), convert_migrated.
  unfold saveData, WriteFile. cbn [write_ok set_data]. by rewrite Hw.
Qed.

Lemma load_migrates (w : World) (file : FileBytes) (old : OldData) :
  read_ok w = true -> dotenv_ok w = true -> TELEGRAM_BOT_TOKEN w <> "" ->
  tags_json w = Some file ->
  Unmarshal_Data file (data w) = None ->
  Unmarshal_OldData file {| OldTags := [] |} = Some old ->
  write_ok w = true ->
  Part000.loadData w
  = (fst (saveData (set_data w {| Tags := map migrated (OldTags old) |})),
     Return None).
Proof.
  intros Hr He Htok Hfile Hnew Hold Hw. apply String.eqb_neq in Htok.
  unfold Part000.loadData. rewrite He, Htok, Hfile, Hr, Hnew, Hold.
  cbn [negb]. rewrite convert_migrated.
  unfold saveData, WriteFile. cbn [write_ok set_data]. by rewrite Hw.
Qed.

(** C3.  With the environment in place and the file readable: a state
    whose ids and timestamps are Go values, once saved, is loaded back as
    it was saved, by either file's [loadData] and whatever [data] held
    before; part_000 loads a legacy document as the tags it lists, every
    subscriber under the placeholder name of its id, writes the migrated
    state to the file at once when the document holds an id at all, and
    leaves a file that the current schema reads as the loaded state; the
    same conversion and write follow for any file that fails under the
    current schema and decodes under the legacy one; and part_000 fails
    when the file decodes under neither schema. *)
Theorem C3_save_load_and_migration (w : World) :
  read_ok w = true -> dotenv_ok w = true -> TELEGRAM_BOT_TOKEN w <> "" ->
  (valid_Data (data w) = true -> write_ok w = true ->
   forall d0 : Data,
     Part000.loadData (set_data (fst (saveData w)) d0)
     = (fst (saveData w), Return None)
     /\ Main.loadData (set_data (fst (saveData w)) d0)
        = (fst (saveData w), None)
     /\ data (fst (saveData w)) = data w)
  /\ (forall old : OldData,
        valid_OldData old = true ->
        tags_json w = Some (legacy_document old) ->
        write_ok w = true ->
        snd (Part000.loadData w) = Return None
        /\ Tags (data (fst (Part000.loadData w)))
           = map migrated (OldTags old)
        /\ (forall (tag : Tag) (s : Subscriber),
              In tag (Tags (data (fst (Part000.loadData w)))) ->
              In s (Subscribers tag) ->
              Username s = placeholder (ID s))
        /\ (List.Exists (fun t => OldSubscribers t <> []) (OldTags old) ->
            tags_json (fst (Part000.loadData w))
            = Some (MarshalIndent (data (fst (Part000.loadData w))))
            /\ writes (fst (Part000.loadData w)) = S (writes w))
        /\ (exists file : FileBytes,
              tags_json (fst (Part000.loadData w)) = Some file
              /\ forall d0 : Data,
                   Unmarshal_Data file d0
                   = Some (data (fst (Part000.loadData w)))))
  /\ (forall (file : FileBytes) (old : OldData),
        tags_json w = Some file ->
        Unmarshal_Data file (data w) = None ->
        Unmarshal_OldData file {| OldTags := [] |} = Some old ->
        write_ok w = true ->
        snd (Part000.loadData w) = Return None
        /\ Tags (data (fst (Part000.loadData w)))
           = map migrated (OldTags old)
        /\ tags_json (fst (Part000.loadData w))
           = Some (MarshalIndent (data (fst (Part000.loadData w))))
        /\ writes (fst (Part000.loadData w)) = S (writes w))
  /\ (forall file : FileBytes,
        tags_json w = Some file ->
        Unmarshal_Data file (data w) = None ->
        Unmarshal_OldData file {| OldTags := [] |} = None ->
        Part000.loadData w = (w, Return (Some BothFormatsError))).
Proof.
  intros Hr He Htok. repeat apply conj.
  - intros Hv Hw d0.
    destruct (load_after_save w d0 Hv Hw Hr) as [Hmain Hpart].
    repeat apply conj; [by apply Hpart|done|apply saveData_data].
  - intros old Hv Hfile Hw.
    rewrite (load_legacy w old Hr He Htok Hv Hfile Hw).
    destruct (forallb (fun t => (length (OldSubscribers t) =? 0)%nat)
                (OldTags old)) eqn:Hids.
    + cbn [fst snd]. repeat apply conj; try done.
      * intros tag s. apply migrated_placeholders.
      * intros Hex. by apply no_ids_spec in Hids.
      * exists (legacy_document old). split; [done|]. intros d0.
        by rewrite (Unmarshal_Data_legacy old d0 Hv), Hids.
    + cbn [fst snd]. rewrite saveData_data, saveData_writes.
      cbn [data set_data writes Tags].
      destruct (saveData_written
                  (set_data w {| Tags := map migrated (OldTags old) |}) Hw)
        as [Hsaved _].
      repeat apply conj; try done.
      * intros tag s. apply migrated_placeholders.
      * exists (MarshalIndent {| Tags := map migrated (OldTags old) |}).
        split; [done|]. intros d0.
        apply Unmarshal_Marshal. by apply valid_migrated.
  - intros file old Hfile Hnew Hold Hw.
    rewrite (load_migrates w file old Hr He Htok Hfile Hnew Hold Hw).
    cbn [fst snd]. rewrite saveData_data, saveData_writes.
    destruct (saveData_written
                (set_data w {| Tags := map migrated (OldTags old) |}) Hw)
      as [Hsaved _].
    by repeat apply conj.
  - intros file Hfile Hnew Hold. apply String.eqb_neq in Htok.
    unfold Part000.loadData. by rewrite He, Htok, Hfile, Hr, Hnew, Hold.
Qed.

(** ** The walk-throughs of the specification, run on the code *)

Example walk_through_lunch :
  let w1 := snd (Part000.handle_ct ToLower_ascii ["lunch"] alice noon fresh) in
  let w2 := snd (handle_st ToLower_ascii ["lunch"] bob w1) in
  w1 = lunch_world
  /\ fst (handle_st ToLower_ascii ["lunch"] bob w1) = Subscribed "lunch"
  /\ handle_st ToLower_ascii ["lunch"] bob w2 = (AlreadySubscribed, w2)
  /\ Part000.handle_dt ToLower_ascii ["lunch"] bob false w2 = (NotAllowed, w2)
  /\ fst (Part000.handle_dt ToLower_ascii ["lunch"] alice false w2)
     = Deleted "lunch"
  /\ findTag ToLower_ascii "LUNCH"
       (data (snd (Part000.handle_dt ToLower_ascii ["lunch"] alice false w2)))
     = None.
Proof. vm_compute. repeat split. Qed.

Example walk_through_legacy :
  let w := fst (Part000.loadData (with_file (Some legacy_x) fresh)) in
  snd (Part000.loadData (with_file (Some legacy_x) fresh)) = Return None
  /\ map Subscribers (Tags (data w))
     = [[{| ID := 5; Username := "User5" |};
         {| ID := 6; Username := "User6" |}]]
  /\ tags_json w = Some (MarshalIndent (data w))
  /\ Part000.handle_text ToLower_ascii ["#x"] w = (Silent, w)
  /\ Main.loadData (with_file (Some legacy_x) fresh)
     = (with_file (Some legacy_x) fresh, Some UnmarshalError).
Proof. vm_compute. repeat split. Qed.

Example prune_and_list :
  Tags (data (cleanEmptyTags two_tags)) = [team]
  /\ fst (handle_lt two_tags) = TagList [("Team", 3%nat, "the team")]
  /\ fst (Main.handle_stats two_tags) = Stats [("Team", 3%nat)]
  /\ fst (handle_lt fresh) = NoTags
  /\ fst (Main.handle_stats fresh) = Stats []
  /\ fst (Part000.handle_stats fresh) = NoTags
  /\ handle_mt bob two_tags = (MyTags [("Team", "the team")] true, two_tags).
Proof. vm_compute. repeat split. Qed.

Example mention_twice :
  fst (Main.handle_text ToLower_ascii ["team"; "idle"; "nobody"; "TEAM"]
         two_tags)
  = Responses [(["@bob"], "team"); (["@bob"], "TEAM")]
  /\ fst (Part000.handle_text ToLower_ascii
            ["hello"; "#team"; "#idle"; "#TEAM"] two_tags)
     = Mentions ["@bob"; "@bob"]
  /\ fst (Main.handle_text ToLower_ascii ["idle"] two_tags) = Silent.
Proof. vm_compute. repeat split. Qed.

(** ** C1, C2: where the code departs from the claims *)

(** C1 fails as stated.  main.go creates a tag under a name of 51
    characters with a description of 101 characters, and an eleventh tag
    for the same creator; part_000 answers a description of 101 characters
    with the tag limit when the creator has ten tags, for it tests the
    limit first. *)
Lemma C1_limits_missing_or_out_of_order :
  (String.length (letters 51) = 51%nat
   /\ String.length (letters 101) = 101%nat
   /\ fst (Main.handle_ct ToLower_ascii [letters 51; letters 101] alice noon
             fresh)
      = Created "alice" (letters 51) (letters 101)
   /\ Tags (data (snd (Main.handle_ct ToLower_ascii
                         [letters 51; letters 101] alice noon fresh)))
      = [new_tag (letters 51) [letters 101] alice noon])
  /\ (tags_of 42 (Tags (data crowded)) = 10%nat
      /\ fst (Main.handle_ct ToLower_ascii ["lunch"] alice noon crowded)
         = Created "alice" "lunch" ""
      /\ tags_of 42
           (Tags (data (snd (Main.handle_ct ToLower_ascii ["lunch"] alice
                               noon crowded)))) = 11%nat)
  /\ Part000.handle_ct ToLower_ascii ["lunch"; letters 101] alice noon crowded
     = (LimitReached, crowded)
  /\ characters (letters 51) = 51%nat
  /\ characters (letters 101) = 101%nat.
Proof. vm_compute. repeat split. Qed.

(** The length tests of part_000 count bytes, while its replies speak of
    characters: a name of 28 characters in Cyrillic letters, 54 bytes
    long, is turned away as too long. *)
Example a_short_name_in_two_byte_letters :
  characters "программирование_на_выходных" = 28%nat
  /\ String.length "программирование_на_выходных" = 54%nat
  /\ Part000.handle_ct ToLower_ascii ["программирование_на_выходных"]
       alice noon fresh
     = (NameTooLong, fresh).
Proof. vm_compute. repeat split. Qed.

(** C2 fails as stated.  On a disk that refuses the write, [saveData]
    returns an error for the state with the new tag, and yet /ct, in
    either file, announces the tag as created; the tag is in memory and
    the file has not come to exist. *)
Lemma C2_failed_save_goes_unreported :
  snd (saveData (set_data broken {| Tags := [lunch] |})) = Some WriteError
  /\ fst (Part000.handle_ct ToLower_ascii ["lunch"] alice noon broken)
     = Created "alice" "lunch" ""
  /\ fst (Main.handle_ct ToLower_ascii ["lunch"] alice noon broken)
     = Created "alice" "lunch" ""
  /\ Tags (data (snd (Part000.handle_ct ToLower_ascii ["lunch"] alice noon
                        broken))) = [lunch]
  /\ tags_json (snd (Part000.handle_ct ToLower_ascii ["lunch"] alice noon
                       broken)) = None.
Proof. vm_compute. repeat split. Qed.

(** ** The hypotheses of C3, C4 and C6 at concrete inputs *)

Lemma C6_witness :
  findTag ToLower_ascii "LUNCH"
    (data (snd (Part000.handle_ct ToLower_ascii ["lunch"] alice noon fresh)))
  = Some (0%nat, lunch)
  /\ findTag ToLower_ascii "LUNCH"
       (data (snd (Main.handle_ct ToLower_ascii ["lunch"] alice noon fresh)))
     = Some (0%nat, lunch).
Proof.
  destruct (C6_create_then_find ToLower_ascii "lunch" [] alice noon fresh
              "LUNCH" eq_refl) as (Hpart & Hmain & _).
  split.
  - exact (Hpart "alice" "lunch" "" eq_refl).
  - exact (Hmain "alice" "lunch" "" eq_refl).
Defined.

Lemma C4_witness :
  findTag ToLower_ascii "lunch" (data lunch_world) = Some (0%nat, lunch)
  /\ handle_st ToLower_ascii ["lunch"] bob
       (snd (handle_st ToLower_ascii ["lunch"] bob lunch_world))
     = (AlreadySubscribed,
        snd (handle_st ToLower_ascii ["lunch"] bob lunch_world)).
Proof.
  assert (findTag ToLower_ascii "lunch" (data lunch_world)
          = Some (0%nat, lunch)) as Hf by reflexivity.
  split; [exact Hf|].
  exact (proj1 (C4_subscribe_twice ToLower_ascii "lunch" [] [] bob bob
                  lunch_world 0%nat lunch Hf eq_refl)).
Defined.

Lemma C3_witness :
  Part000.loadData (set_data (fst (saveData lunch_world)) zeroData)
  = (fst (saveData lunch_world), Return None)
  /\ Tags (data (fst (Part000.loadData
                        (with_file (Some (legacy_document old_x)) fresh))))
     = map migrated (OldTags old_x)
  /\ Tags (data (fst (Part000.loadData (with_file (Some legacy_x) fresh))))
     = [{| Name := "x"; CreatorID := 1; CreatorName := ""; Description := "";
           Subscribers := [{| ID := 5; Username := "User5" |};
                           {| ID := 6; Username := "User6" |}];
           CreatedAt := zeroTime |}]
  /\ Part000.loadData (with_file (Some NotJSON) fresh)
     = (with_file (Some NotJSON) fresh, Return (Some BothFormatsError)).
Proof.
  assert ("token" <> "") as Htok by discriminate.
  repeat apply conj.
  - exact (proj1 (proj1 (C3_save_load_and_migration lunch_world
                           eq_refl eq_refl Htok)
                    eq_refl eq_refl zeroData)).
  - exact (proj1 (proj2 (proj1 (proj2 (C3_save_load_and_migration
                                         (with_file
                                            (Some (legacy_document old_x))
                                            fresh)
                                         eq_refl eq_refl Htok))
                           old_x eq_refl eq_refl eq_refl))).
  - exact (proj1 (proj2 (proj1 (proj2 (proj2 (C3_save_load_and_migration
                                                (with_file (Some legacy_x)
                                                   fresh)
                                                eq_refl eq_refl Htok)))
                           legacy_x
                           {| OldTags :=
                                [{| OldName := "x"; OldCreatorID := 1;
                                    OldCreatorName := "";
                                    OldDescription := "";
                                    OldSubscribers := [5; 6];
                                    OldCreatedAt := zeroTime |}] |}
                           eq_refl eq_refl eq_refl eq_refl))).
  - exact (proj2 (proj2 (proj2 (C3_save_load_and_migration
                                  (with_file (Some NotJSON) fresh)
                                  eq_refl eq_refl Htok)))
             NotJSON eq_refl eq_refl eq_refl).
Defined.

(** ** Every handler as a step on the stored tags *)

Section Steps.

Variable ToLower : string -> string.

Lemma Part000_ct_step (args : list string) (sender : User) (now : Time)
  (w : World) :
  step ToLower true (Tags (data w))
    (Tags (data (snd (Part000.handle_ct ToLower args sender now w)))).
Proof.
  unfold Part000.handle_ct.
  destruct args as [|tagName rest]; [constructor|].
  destruct (Nat.ltb_spec 50 (String.length tagName)); [constructor|].
  destruct (findTag ToLower tagName (data w)) eqn:Hf; [constructor|].
  rewrite userTags_count.
  destruct (Nat.leb_spec 10 (tags_of (User_ID sender) (Tags (data w))));
    [constructor|].
  destruct ((0 <? length rest)%nat && _) eqn:Hd; [constructor|].
  simpl. rewrite saveData_data. simpl.
  apply (step_add ToLower true (Tags (data w))
           (new_tag tagName rest sender now)); simpl.
  - by rewrite data_eta.
  - done.
  - intros _. repeat split; [done| |done].
    destruct rest as [|r rest]; [simpl; lia|].
    simpl in Hd. by apply Nat.ltb_ge in Hd.
Qed.

Lemma Main_ct_step (limits : bool) (args : list string) (sender : User)
  (now : Time) (w : World) :
  limits = false ->
  step ToLower limits (Tags (data w))
    (Tags (data (snd (Main.handle_ct ToLower args sender now w)))).
Proof.
  intros ->. unfold Main.handle_ct.
  destruct args as [|tagName rest]; [constructor|].
  destruct (findTag ToLower tagName (data w)) eqn:Hf; [constructor|].
  simpl. rewrite saveData_data. simpl.
  apply (step_add ToLower false (Tags (data w))
           (new_tag tagName rest sender now)); simpl;
    [by rewrite data_eta|done|done].
Qed.

Lemma st_step (limits : bool) (args : list string) (sender : User)
  (w : World) :
  step ToLower limits (Tags (data w))
    (Tags (data (snd (handle_st ToLower args sender w)))).
Proof.
  unfold handle_st.
  destruct args as [|arg0 rest]; [constructor|].
  destruct (findTag ToLower arg0 (data w)) as [[i tag]|] eqn:Hf;
    [|constructor].
  destruct (subscribed (User_ID sender) (Subscribers tag)) eqn:Hs;
    [constructor|].
  simpl. rewrite saveData_data. simpl.
  apply findTag_Some in Hf as [Hi _].
  by apply (step_subscribe ToLower limits (Tags (data w)) i tag
              {| ID := User_ID sender; Username := _ |}).
Qed.

Lemma Part000_dt_step (limits : bool) (args : list string) (sender : User)
  (isAdmin : bool) (w : World) :
  step ToLower limits (Tags (data w))
    (Tags (data (snd (Part000.handle_dt ToLower args sender isAdmin w)))).
Proof.
  unfold Part000.handle_dt.
  destruct args as [|arg0 rest]; [constructor|].
  destruct (findTag ToLower arg0 (data w)) as [[i tag]|]; [|constructor].
  destruct (negb _ && _); [constructor|].
  simpl. rewrite saveData_data. simpl. rewrite remove_named_filter.
  constructor.
Qed.

Lemma Main_dt_step (limits : bool) (args : list string) (sender : User)
  (w : World) :
  step ToLower limits (Tags (data w))
    (Tags (data (snd (Main.handle_dt ToLower args sender w)))).
Proof.
  unfold Main.handle_dt.
  destruct args as [|arg0 rest]; [constructor|].
  destruct (findTag ToLower arg0 (data w)) as [[i tag]|]; [|constructor].
  destruct (negb _); [constructor|].
  simpl. rewrite saveData_data. simpl. rewrite remove_named_filter.
  constructor.
Qed.

Lemma prune_step (limits : bool) (w : World) :
  step ToLower limits (Tags (data w)) (Tags (data (cleanEmptyTags w))).
Proof. rewrite cleanEmptyTags_tags. constructor. Qed.

(** Whatever the update, part_000 changes the stored tags by one step that
    respects its limits, and main.go by one step. *)
Lemma serve_steps (u : Update) (w : World) :
  step ToLower true (Tags (data w))
    (Tags (data (snd (Part000_serve ToLower u w))))
  /\ step ToLower false (Tags (data w))
       (Tags (data (snd (Main_serve ToLower u w)))).
Proof.
  destruct u; simpl; split;
    try apply Part000_ct_step; try (by apply Main_ct_step);
    try apply st_step; try apply Part000_dt_step; try apply Main_dt_step;
    rewrite ?handle_mt_world; try constructor.
  all: unfold handle_lt, Part000.handle_stats, Main.handle_stats,
         Part000.handle_text, Main.handle_text;
       try (destruct (length (Tags (data (cleanEmptyTags w))) =? 0)%nat;
            simpl; apply prune_step);
       try (simpl; apply prune_step);
       try (destruct (0 <? _)%nat; simpl; constructor).
Qed.

End Steps.

(** ** What the steps keep *)

Lemma map_insert_same {A B : Type} (f : A -> B) (l : list A) (i : nat)
  (x y : A) :
  l !! i = Some x -> f y = f x -> map f (<[i := y]> l) = map f l.
Proof.
  revert i; induction l as [|a l IH]; intros [|i] Hl Hf; simpl in *;
    try done.
  - injection Hl as ->. by rewrite Hf.
  - by rewrite IH.
Qed.

Lemma NoDup_map_filter {A B : Type} (f : A -> B) (p : A -> bool)
  (l : list A) :
  List.NoDup (map f l) -> List.NoDup (map f (List.filter p l)).
Proof.
  induction l as [|a l IH]; simpl; [done|].
  intros H. apply List.NoDup_cons_iff in H as [Hin Hnd].
  destruct (p a); simpl; [|by apply IH].
  apply List.NoDup_cons_iff. split; [|by apply IH].
  intros Hin'. apply Hin. apply in_map_iff in Hin' as (x & Hx & Hin').
  apply filter_In in Hin' as [Hin' _]. apply in_map_iff. by exists x.
Qed.

Lemma subscribed_In (id : Z) (subs : list Subscriber) :
  subscribed id subs = true <-> In id (map ID subs).
Proof.
  induction subs as [|s subs IH]; simpl; [split; [done|tauto]|].
  destruct (Z.eqb_spec (ID s) id).
  - split; [by left|done].
  - rewrite IH. split; [by right|]. by intros [?|?].
Qed.

Lemma tags_of_creators (id : Z) (tags : list Tag) :
  tags_of id tags
  = length (List.filter (fun c => c =? id) (map CreatorID tags)).
Proof.
  unfold tags_of. induction tags as [|t tags IH]; simpl; [done|].
  destruct (CreatorID t =? id); simpl; by rewrite IH.
Qed.

Lemma tags_of_filter (id : Z) (keep : Tag -> bool) (tags : list Tag) :
  (tags_of id (List.filter keep tags) <= tags_of id tags)%nat.
Proof.
  unfold tags_of. induction tags as [|t tags IH]; simpl; [done|].
  destruct (keep t), (CreatorID t =? id) eqn:Hc; simpl; rewrite ?Hc; simpl;
    lia.
Qed.

Lemma tags_of_app (id : Z) (l1 l2 : list Tag) :
  tags_of id (l1 ++ l2) = (tags_of id l1 + tags_of id l2)%nat.
Proof. unfold tags_of. by rewrite List.filter_app, length_app. Qed.

Section Kept.

Variable ToLower : string -> string.

Lemma step_unique_names (limits : bool) (tags tags' : list Tag) :
  step ToLower limits tags tags' ->
  unique_names ToLower tags -> unique_names ToLower tags'.
Proof.
  unfold unique_names. intros Hstep Hnd.
  destruct Hstep as [tags|tags t Hf _ _|tags i tag s Hi _|tags keep].
  - done.
  - rewrite map_app. apply List.NoDup_app; [done| |].
    + simpl. apply List.NoDup_cons; [by intros []|constructor].
    + intros a Hin [<-|[]].
      apply findTag_None in Hf. simpl in Hf.
      rewrite List.Forall_forall in Hf.
      apply in_map_iff in Hin as (x & Hx & Hin). by apply (Hf x).
  - by rewrite (map_insert_same _ _ _ tag).
  - by apply NoDup_map_filter.
Qed.

Lemma step_unique_ids (limits : bool) (tags tags' : list Tag) :
  step ToLower limits tags tags' -> unique_ids tags -> unique_ids tags'.
Proof.
  unfold unique_ids. intros Hstep Hall.
  destruct Hstep as [tags|tags t _ Hs _|tags i tag s Hi Hs|tags keep].
  - done.
  - apply List.Forall_app. split; [done|].
    constructor; [|constructor]. rewrite Hs. constructor.
  - apply Forall_insert; [done|]. simpl.
    rewrite map_app. simpl.
    assert (List.NoDup (map ID (Subscribers tag))) as Hnd.
    { rewrite List.Forall_forall in Hall. apply Hall.
      apply list_elem_of_In. by apply list_elem_of_lookup_2 in Hi. }
    apply List.NoDup_app; [done| |].
    + apply List.NoDup_cons; [by intros []|constructor].
    + intros a Hin [<-|[]]. apply subscribed_In in Hin. congruence.
  - rewrite List.Forall_forall in *. intros t Hin.
    apply filter_In in Hin as [Hin _]. by apply Hall.
Qed.

Lemma step_within_limits (tags tags' : list Tag) :
  step ToLower true tags tags' -> within_limits tags -> within_limits tags'.
Proof.
  unfold within_limits. intros Hstep [Hall Hquota].
  destruct Hstep as [tags|tags t _ _ Hlim|tags i tag s Hi _|tags keep].
  - done.
  - destruct (Hlim eq_refl) as (Hn & Hd & Hq). split.
    + apply List.Forall_app. split; [done|].
      constructor; [done|constructor].
    + intros id. rewrite tags_of_app. specialize (Hquota id).
      unfold tags_of at 2. simpl.
      destruct (Z.eqb_spec (CreatorID t) id) as [<-|]; simpl; lia.
  - split.
    + apply Forall_insert; [done|]. simpl.
      rewrite List.Forall_forall in Hall. apply Hall.
      apply list_elem_of_In. by apply list_elem_of_lookup_2 in Hi.
    + intros id. rewrite tags_of_creators.
      rewrite (map_insert_same CreatorID _ _ tag) by done.
      rewrite <- tags_of_creators. apply Hquota.
  - split.
    + rewrite List.Forall_forall in *. intros t Hin.
      apply filter_In in Hin as [Hin _]. by apply Hall.
    + intros id. pose proof (tags_of_filter id keep tags).
      specialize (Hquota id). lia.
Qed.

(** X1.  Names that are unique up to letter case stay unique through every run
    of updates, in either file. *)
Theorem names_stay_unique (us : list Update) (w : World) :
  unique_names ToLower (Tags (data w)) ->
  unique_names ToLower (Tags (data (run (Part000_serve ToLower) us w)))
  /\ unique_names ToLower (Tags (data (run (Main_serve ToLower) us w))).
Proof.
  unfold run. revert w. induction us as [|u us IH]; intros w Hn; [done|].
  simpl. destruct (serve_steps ToLower u w) as [Hp Hm]. split.
  - apply IH. by apply (step_unique_names true _ _ Hp).
  - apply IH. by apply (step_unique_names false _ _ Hm).
Qed.

(** X2.  Subscriber lists that hold no id twice stay so through every run of
    updates, in either file. *)
Theorem ids_stay_unique (us : list Update) (w : World) :
  unique_ids (Tags (data w)) ->
  unique_ids (Tags (data (run (Part000_serve ToLower) us w)))
  /\ unique_ids (Tags (data (run (Main_serve ToLower) us w))).
Proof.
  unfold run. revert w. induction us as [|u us IH]; intros w Hn; [done|].
  simpl. destruct (serve_steps ToLower u w) as [Hp Hm]. split.
  - apply IH. by apply (step_unique_ids true _ _ Hp).
  - apply IH. by apply (step_unique_ids false _ _ Hm).
Qed.

(** X3.  In part_000, stored tags whose names have at most 50 bytes and whose
    descriptions have at most 100, with at most 10 tags for any creator,
    stay so through every run of updates. *)
Theorem limits_are_kept (us : list Update) (w : World) :
  within_limits (Tags (data w)) ->
  within_limits (Tags (data (run (Part000_serve ToLower) us w))).
Proof.
  unfold run. revert w. induction us as [|u us IH]; intros w H; [done|].
  simpl. apply IH.
  destruct (serve_steps ToLower u w) as [Hp _].
  by apply (step_within_limits _ _ Hp).
Qed.

End Kept.

(** ** What no handler does *)

Lemma In_insert {A : Type} (l : list A) (i : nat) (x y : A) :
  In y (<[i := x]> l) -> y = x \/ In y l.
Proof.
  revert i; induction l as [|a l IH]; intros [|i]; simpl;
    try (intuition congruence).
  intros [?|H]; [tauto|]. apply IH in H. tauto.
Qed.

Lemma grown_refl (t : Tag) : grown t t.
Proof.
  repeat split. exists []. rewrite app_nil_r. split; [done|simpl; lia].
Qed.

Section Frame.

Variable ToLower : string -> string.

Lemma step_grown (limits : bool) (tags tags' : list Tag) (t' : Tag) :
  step ToLower limits tags tags' ->
  In t' tags' ->
  (exists t : Tag, In t tags /\ grown t t')
  \/ (Subscribers t' = []
      /\ findTag ToLower (Name t') {| Tags := tags |} = None).
Proof.
  intros Hstep Hin.
  destruct Hstep as [tags|tags t Hf Hs _|tags i tag s Hi _|tags keep].
  - left. exists t'. split; [done|apply grown_refl].
  - apply in_app_iff in Hin as [Hin|[<-|[]]]; [|by right].
    left. exists t'. split; [done|apply grown_refl].
  - apply In_insert in Hin as [->|Hin].
    + left. exists tag. split.
      * apply list_elem_of_In. by apply list_elem_of_lookup_2 in Hi.
      * repeat split. exists [s]. split; [done|simpl; lia].
    + left. exists t'. split; [done|apply grown_refl].
  - apply filter_In in Hin as [Hin _].
    left. exists t'. split; [done|apply grown_refl].
Qed.

(** X4.  No handler of either file edits a stored tag or takes a subscriber
    away: a tag stored after an update is a tag stored before it with the
    same name, creator, description and creation time and with its
    subscribers followed by at most one more, or it is a new tag without
    subscribers under a name that found nothing before. *)
Theorem tags_are_never_edited (u : Update) (w : World) (t' : Tag) :
  (In t' (Tags (data (snd (Part000_serve ToLower u w)))) ->
   (exists t : Tag, In t (Tags (data w)) /\ grown t t')
   \/ (Subscribers t' = [] /\ findTag ToLower (Name t') (data w) = None))
  /\ (In t' (Tags (data (snd (Main_serve ToLower u w)))) ->
      (exists t : Tag, In t (Tags (data w)) /\ grown t t')
      \/ (Subscribers t' = [] /\ findTag ToLower (Name t') (data w) = None)).
Proof.
  destruct (serve_steps ToLower u w) as [Hp Hm].
  split; intros Hin.
  - destruct (step_grown true _ _ _ Hp Hin) as [H|[H1 H2]]; [by left|right].
    by rewrite data_eta in H2.
  - destruct (step_grown false _ _ _ Hm Hin) as [H|[H1 H2]]; [by left|right].
    by rewrite data_eta in H2.
Qed.

End Frame.

(** ** Memory and file *)

Lemma saved_in_sync (w : World) (d : Data) :
  (write_ok w = true ->
   in_sync (fst (saveData (set_data w d)))
   /\ write_ok (fst (saveData (set_data w d))) = true)
  /\ (write_ok w = false ->
      tags_json (fst (saveData (set_data w d))) = tags_json w
      /\ write_ok (fst (saveData (set_data w d))) = false).
Proof.
  unfold in_sync, saveData, WriteFile. cbn [write_ok set_data].
  split; intros ->; by cbn.
Qed.

Section Sync.

Variable ToLower : string -> string.

Lemma serve_result (u : Update) (w : World) :
  (snd (Part000_serve ToLower u w) = w
   \/ exists d : Data,
        snd (Part000_serve ToLower u w) = fst (saveData (set_data w d)))
  /\ (snd (Main_serve ToLower u w) = w
      \/ exists d : Data,
           snd (Main_serve ToLower u w) = fst (saveData (set_data w d))).
Proof.
  destruct u as [args sender now|args sender|args sender isAdmin| |sender| |
                 words matches]; simpl.
  - unfold Part000.handle_ct, Main.handle_ct.
    destruct args as [|tagName rest]; [by split; left|].
    destruct (findTag ToLower tagName (data w));
      repeat match goal with
             | |- context [if ?c then _ else _] => destruct c
             end;
      simpl; split; (by left) || (right; by eexists).
  - unfold handle_st.
    destruct args as [|arg0 rest]; [by split; left|].
    destruct (findTag ToLower arg0 (data w)) as [[i tag]|];
      [|by split; left].
    destruct (subscribed _ _); simpl; split; (by left) || (right; by eexists).
  - unfold Part000.handle_dt, Main.handle_dt.
    destruct args as [|arg0 rest]; [by split; left|].
    destruct (findTag ToLower arg0 (data w)) as [[i tag]|];
      [|by split; left].
    destruct (CreatorID tag =? User_ID sender), isAdmin;
      simpl; split; (by left) || (right; by eexists).
  - unfold handle_lt.
    destruct (length (Tags (data (cleanEmptyTags w))) =? 0)%nat;
      simpl; split; right; by eexists.
  - rewrite handle_mt_world. by split; left.
  - unfold Part000.handle_stats, Main.handle_stats.
    destruct (length (Tags (data (cleanEmptyTags w))) =? 0)%nat;
      simpl; split; right; by eexists.
  - unfold Part000.handle_text, Main.handle_text.
    split; destruct (0 <? _)%nat; by left.
Qed.

(** X5.  On a disk that takes every write the file keeps holding the state in
    memory through every run of updates, in either file; on a disk that
    refuses every write the file stays what it was, whatever the bot is
    told. *)
Theorem file_follows_memory (us : list Update) (w : World) :
  (write_ok w = true -> in_sync w ->
   in_sync (run (Part000_serve ToLower) us w)
   /\ in_sync (run (Main_serve ToLower) us w))
  /\ (write_ok w = false ->
      tags_json (run (Part000_serve ToLower) us w) = tags_json w
      /\ tags_json (run (Main_serve ToLower) us w) = tags_json w).
Proof.
  unfold run. split.
  - revert w. induction us as [|u us IH]; intros w Hw Hs; [done|].
    simpl. destruct (serve_result u w) as [Hp Hm]. split.
    + destruct Hp as [->|[d ->]]; [by apply IH|].
      destruct (saved_in_sync w d) as [H _]. destruct (H Hw).
      by apply IH.
    + destruct Hm as [->|[d ->]]; [by apply IH|].
      destruct (saved_in_sync w d) as [H _]. destruct (H Hw).
      by apply IH.
  - revert w. induction us as [|u us IH]; intros w Hw; [done|].
    simpl. destruct (serve_result u w) as [Hp Hm]. split.
    + destruct Hp as [->|[d ->]]; [by apply IH|].
      destruct (saved_in_sync w d) as [_ H]. destruct (H Hw) as [<- Hw'].
      by apply IH.
    + destruct Hm as [->|[d ->]]; [by apply IH|].
      destruct (saved_in_sync w d) as [_ H]. destruct (H Hw) as [<- Hw'].
      by apply IH.
Qed.

End Sync.

(** ** Lookup and the arguments of the commands *)

Section Arguments.

Variable ToLower : string -> string.

Lemma findTag_from_first (n : string) (k i : nat) (tags : list Tag) (t : Tag) :
  findTag_from ToLower n k tags = Some (i, t) ->
  forall (j : nat) (t0 : Tag),
    (j < i - k)%nat -> tags !! j = Some t0 -> ToLower (Name t0) <> n.
Proof.
  revert k; induction tags as [|a tags IH]; intros k; simpl; [done|].
  destruct (String.eqb_spec (ToLower (Name a)) n) as [Heq|Hne].
  - intros [= <- <-] j t0 Hj. lia.
  - intros H [|j] t0 Hj Hl; simpl in Hl.
    + by injection Hl as <-.
    + pose proof (findTag_from_Some _ _ _ _ _ _ H) as (Hle & _ & _).
      apply (IH _ H j t0); [lia|done].
Qed.

(** X6.  [findTag] returns the first match: the tag it returns is stored at the
    index it returns, its name matches the query, and no tag stored before
    it has a matching name. *)
Theorem findTag_is_the_first_match (q : string) (d : Data) (i : nat)
  (t : Tag) :
  findTag ToLower q d = Some (i, t) ->
  Tags d !! i = Some t
  /\ ToLower (Name t) = ToLower q
  /\ (forall (j : nat) (t0 : Tag),
        (j < i)%nat -> Tags d !! j = Some t0 ->
        ToLower (Name t0) <> ToLower q).
Proof.
  intros H. destruct (findTag_Some ToLower _ _ _ _ H) as [Hl Hn].
  repeat split; [done|done|].
  intros j t0 Hj. apply (findTag_from_first _ _ _ _ _ H). lia.
Qed.

(** X7.  /st and /dt read their first argument only, and only through its
    lower-case text: two first arguments that lower-case alike, followed
    by anything, give the same reply and the same state. *)
Theorem first_argument_up_to_case (name name' : string)
  (rest rest' : list string) (sender : User) (isAdmin : bool) (w : World) :
  ToLower name' = ToLower name ->
  handle_st ToLower (name' :: rest') sender w
  = handle_st ToLower (name :: rest) sender w
  /\ Part000.handle_dt ToLower (name' :: rest') sender isAdmin w
     = Part000.handle_dt ToLower (name :: rest) sender isAdmin w
  /\ Main.handle_dt ToLower (name' :: rest') sender w
     = Main.handle_dt ToLower (name :: rest) sender w.
Proof.
  intros H. unfold handle_st, Part000.handle_dt, Main.handle_dt.
  by rewrite (findTag_same_fold ToLower name' name _ H).
Qed.

End Arguments.

(** ** /dt under unique names, /dt and then /ct *)

Lemma filter_delete {A B : Type} (f : A -> B) (same : B -> B -> bool)
  (l : list A) (i : nat) (x : A) :
  (forall a b, same a b = true <-> a = b) ->
  List.NoDup (map f l) ->
  l !! i = Some x ->
  List.filter (fun y => negb (same (f y) (f x))) l = delete i l.
Proof.
  intros Hsame. revert i; induction l as [|a l IH]; intros i Hnd Hl;
    [done|].
  simpl in Hnd. apply List.NoDup_cons_iff in Hnd as [Hin Hnd].
  destruct i as [|i]; simpl in *.
  - injection Hl as ->.
    assert (same (f x) (f x) = true) as -> by by apply Hsame.
    simpl. clear IH. induction l as [|b l IHl]; [done|].
    simpl in *. apply List.NoDup_cons_iff in Hnd as [_ Hnd].
    destruct (same (f b) (f x)) eqn:Hb.
    + apply Hsame in Hb. exfalso. apply Hin. by left.
    + simpl. f_equal. apply IHl; [tauto|done].
  - destruct (same (f a) (f x)) eqn:Ha.
    + apply Hsame in Ha. exfalso. apply Hin. rewrite Ha.
      apply in_map. apply list_elem_of_In.
      by apply list_elem_of_lookup_2 in Hl.
    + simpl. f_equal. by apply IH.
Qed.

Section DeleteMore.

Variable ToLower : string -> string.

(** X8.  Where the stored names are unique up to case, a /dt that deletes, in
    either file, removes the one tag that the lookup found and leaves the
    others where they were. *)
Theorem delete_removes_one (name : string) (rest : list string)
  (sender : User) (isAdmin : bool) (w : World) (i : nat) (tag : Tag) :
  unique_names ToLower (Tags (data w)) ->
  findTag ToLower name (data w) = Some (i, tag) ->
  (forall tagName : string,
     fst (Part000.handle_dt ToLower (name :: rest) sender isAdmin w)
     = Deleted tagName ->
     Tags (data (snd (Part000.handle_dt ToLower (name :: rest) sender
                        isAdmin w)))
     = delete i (Tags (data w)))
  /\ (forall tagName : string,
        fst (Main.handle_dt ToLower (name :: rest) sender w)
        = Deleted tagName ->
        Tags (data (snd (Main.handle_dt ToLower (name :: rest) sender w)))
        = delete i (Tags (data w))).
Proof.
  intros Hu Hf. destruct (findTag_Some ToLower _ _ _ _ Hf) as [Hi Hn].
  assert (remove_named ToLower tag (Tags (data w)) = delete i (Tags (data w)))
    as Hdel.
  { rewrite remove_named_filter.
    apply (filter_delete (fun t => ToLower (Name t)) String.eqb);
      [apply String.eqb_eq|done|done]. }
  unfold Part000.handle_dt, Main.handle_dt. rewrite Hf.
  split; intros tagName.
  - destruct (negb _ && _); [done|]. simpl. by rewrite saveData_data.
  - destruct (negb _); [done|]. simpl. by rewrite saveData_data.
Qed.

(** X9.  A name that /dt has deleted is free again: in main.go the next /ct
    under any spelling of it creates a tag, and part_000 does not answer
    it with the reply that the tag exists. *)
Theorem deleted_name_is_free (name q : string) (rest rest' : list string)
  (sender creator : User) (isAdmin : bool) (now : Time) (w : World) :
  ToLower q = ToLower name ->
  (forall tagName : string,
     fst (Main.handle_dt ToLower (name :: rest) sender w) = Deleted tagName ->
     fst (Main.handle_ct ToLower (q :: rest') creator now
            (snd (Main.handle_dt ToLower (name :: rest) sender w)))
     = Created (User_Username creator) q
         (Description (new_tag q rest' creator now)))
  /\ (forall tagName : string,
        fst (Part000.handle_dt ToLower (name :: rest) sender isAdmin w)
        = Deleted tagName ->
        fst (Part000.handle_ct ToLower (q :: rest') creator now
               (snd (Part000.handle_dt ToLower (name :: rest) sender
                       isAdmin w)))
        <> TagExists).
Proof.
  intros Hq. unfold Main.handle_dt, Part000.handle_dt.
  destruct (findTag ToLower name (data w)) as [[i tag]|] eqn:Hf;
    [|by split].
  destruct (findTag_Some ToLower _ _ _ _ Hf) as [_ Hname].
  destruct (deleted_state ToLower name tag w Hname) as [_ Hnone].
  specialize (Hnone q Hq).
  split; intros tagName.
  - destruct (negb _); [done|]. intros _. cbn [fst snd].
    unfold Main.handle_ct. by rewrite Hnone.
  - destruct (negb _ && _); [done|]. intros _. cbn [fst snd].
    unfold Part000.handle_ct. rewrite Hnone.
    repeat match goal with
           | |- context [if ?c then _ else _] => destruct c
           end; done.
Qed.

End DeleteMore.

(** ** What a decoded file holds *)

Lemma members_into_keeps {T : Type} (P : T -> Prop)
  (step : string -> json -> T -> option T) (kv : list (string * json))
  (v v' : T) :
  (forall k j a b, P a -> step k j a = Some b -> P b) ->
  P v -> members_into step kv v = Some v' -> P v'.
Proof.
  intros Hstep. revert v; induction kv as [|[k j] kv IH]; intros v Hv; simpl.
  - by intros [= <-].
  - destruct (step k j v) as [b|] eqn:Hb; [|done].
    apply IH. by apply (Hstep k j v).
Qed.

Lemma into_struct_keeps {T : Type} (P : T -> Prop)
  (step : string -> json -> T -> option T) (j : json) (v v' : T) :
  (forall k j a b, P a -> step k j a = Some b -> P b) ->
  P v -> into_struct step j v = Some v' -> P v'.
Proof.
  intros Hstep Hv. destruct j; simpl; try done.
  - by intros [= <-].
  - by apply members_into_keeps.
Qed.

Lemma elements_all {T : Type} (P : T -> Prop) (elem : json -> option T)
  (l : list json) (xs : list T) :
  (forall j x, elem j = Some x -> P x) ->
  elements elem l = Some xs -> List.Forall P xs.
Proof.
  intros Helem. revert xs; induction l as [|j l IH]; intros xs; simpl.
  - intros [= <-]. constructor.
  - destruct (elem j) as [x|] eqn:Hx; [|done].
    destruct (elements elem l) as [ys|]; [|done].
    intros [= <-]. constructor; [by apply (Helem j)|by apply IH].
Qed.

Lemma into_slice_all {T : Type} (P : T -> Prop) (elem : json -> option T)
  (j : json) (cur xs : list T) :
  (forall j x, elem j = Some x -> P x) ->
  into_slice elem j cur = Some xs -> List.Forall P xs.
Proof.
  intros Helem. destruct j; simpl; try done.
  - intros [= <-]. constructor.
  - by apply elements_all.
Qed.

Lemma into_int64_ok (j : json) (cur x : Z) :
  int64_ok cur = true -> into_int64 j cur = Some x -> int64_ok x = true.
Proof.
  intros Hc. destruct j; simpl; try done.
  - by intros [= <-].
  - destruct (int64_ok n) eqn:Hn; [|done]. by intros [= <-].
Qed.

Lemma into_Time_ok (j : json) (cur x : Time) :
  rfc3339 cur = true -> into_Time j cur = Some x -> rfc3339 x = true.
Proof.
  intros Hc. destruct j; simpl; try done.
  - by intros [= <-].
  - destruct (rfc3339 s) eqn:Hs; [|done]. by intros [= <-].
Qed.

Lemma forallb_Forall {A : Type} (p : A -> bool) (l : list A) :
  forallb p l = true <-> List.Forall (fun x => p x = true) l.
Proof. by rewrite forallb_forall, List.Forall_forall. Qed.

Lemma into_Subscriber_ok (j : json) (cur s : Subscriber) :
  int64_ok (ID cur) = true -> into_Subscriber j cur = Some s ->
  int64_ok (ID s) = true.
Proof.
  apply (into_struct_keeps (fun s => int64_ok (ID s) = true)).
  intros k e a b Ha. unfold Subscriber_member.
  destruct (field _ k) as [[|[|n]]|]; simpl.
  - destruct (into_int64 e (ID a)) as [x|] eqn:Hx; [|done].
    intros [= <-]. simpl. by apply (into_int64_ok e (ID a)).
  - destruct (into_string e (Username a)); [|done]. by intros [= <-].
  - by intros [= <-].
  - by intros [= <-].
Qed.

Lemma into_Tag_ok (j : json) (cur t : Tag) :
  valid_Tag cur = true -> into_Tag j cur = Some t -> valid_Tag t = true.
Proof.
  apply (into_struct_keeps (fun t => valid_Tag t = true)).
  intros k e a b Ha. unfold valid_Tag in Ha.
  apply andb_true_iff in Ha as [Ha Hs]. apply andb_true_iff in Ha as [Hc Ht].
  unfold Tag_member.
  destruct (field _ k) as [[|[|[|[|[|[|n]]]]]]|]; simpl.
  - destruct (into_string e (Name a)); [|done]. intros [= <-].
    unfold valid_Tag. simpl. by rewrite Hc, Ht, Hs.
  - destruct (into_int64 e (CreatorID a)) as [x|] eqn:Hx; [|done].
    intros [= <-]. unfold valid_Tag. simpl.
    by rewrite (into_int64_ok e _ x Hc Hx), Ht, Hs.
  - destruct (into_string e (CreatorName a)); [|done]. intros [= <-].
    unfold valid_Tag. simpl. by rewrite Hc, Ht, Hs.
  - destruct (into_string e (Description a)); [|done]. intros [= <-].
    unfold valid_Tag. simpl. by rewrite Hc, Ht, Hs.
  - destruct (into_slice _ e (Subscribers a)) as [x|] eqn:Hx; [|done].
    intros [= <-]. unfold valid_Tag. simpl. rewrite Hc, Ht. simpl.
    apply forallb_Forall.
    apply (into_slice_all (fun s => int64_ok (ID s) = true) _ _ _ _) in Hx;
      [done|].
    intros j0 s. by apply into_Subscriber_ok.
  - destruct (into_Time e (CreatedAt a)) as [x|] eqn:Hx; [|done].
    intros [= <-]. unfold valid_Tag. simpl.
    by rewrite Hc, (into_Time_ok e _ x Ht Hx), Hs.
  - intros [= <-]. unfold valid_Tag. by rewrite Hc, Ht, Hs.
  - intros [= <-]. unfold valid_Tag. by rewrite Hc, Ht, Hs.
Qed.

Lemma Unmarshal_Data_ok (file : FileBytes) (cur d : Data) :
  valid_Data cur = true -> Unmarshal_Data file cur = Some d ->
  valid_Data d = true.
Proof.
  destruct file as [|doc]; [done|]. simpl.
  apply (into_struct_keeps (fun d => valid_Data d = true)).
  intros k e a b Ha. unfold Data_member.
  destruct (field _ k) as [[|n]|]; simpl.
  - destruct (into_slice _ e (Tags a)) as [x|] eqn:Hx; [|done].
    intros [= <-]. unfold valid_Data. simpl. apply forallb_Forall.
    apply (into_slice_all (fun t => valid_Tag t = true) _ _ _ _) in Hx;
      [done|].
    intros j0 t. by apply into_Tag_ok.
  - by intros [= <-].
  - by intros [= <-].
Qed.

Lemma into_OldTag_ok (j : json) (cur t : OldTag) :
  valid_OldTag cur = true -> into_OldTag j cur = Some t ->
  valid_OldTag t = true.
Proof.
  apply (into_struct_keeps (fun t => valid_OldTag t = true)).
  intros k e a b Ha. unfold valid_OldTag in Ha.
  apply andb_true_iff in Ha as [Ha Hs]. apply andb_true_iff in Ha as [Hc Ht].
  unfold OldTag_member.
  destruct (field _ k) as [[|[|[|[|[|[|n]]]]]]|]; simpl.
  - destruct (into_string e (OldName a)); [|done]. intros [= <-].
    unfold valid_OldTag. simpl. by rewrite Hc, Ht, Hs.
  - destruct (into_int64 e (OldCreatorID a)) as [x|] eqn:Hx; [|done].
    intros [= <-]. unfold valid_OldTag. simpl.
    by rewrite (into_int64_ok e _ x Hc Hx), Ht, Hs.
  - destruct (into_string e (OldCreatorName a)); [|done]. intros [= <-].
    unfold valid_OldTag. simpl. by rewrite Hc, Ht, Hs.
  - destruct (into_string e (OldDescription a)); [|done]. intros [= <-].
    unfold valid_OldTag. simpl. by rewrite Hc, Ht, Hs.
  - destruct (into_slice _ e (OldSubscribers a)) as [x|] eqn:Hx; [|done].
    intros [= <-]. unfold valid_OldTag. simpl. rewrite Hc, Ht. simpl.
    apply forallb_Forall.
    apply (into_slice_all (fun n => int64_ok n = true) _ _ _ _) in Hx;
      [done|].
    intros j0 n. by apply into_int64_ok.
  - destruct (into_Time e (OldCreatedAt a)) as [x|] eqn:Hx; [|done].
    intros [= <-]. unfold valid_OldTag. simpl.
    by rewrite Hc, (into_Time_ok e _ x Ht Hx), Hs.
  - intros [= <-]. unfold valid_OldTag. by rewrite Hc, Ht, Hs.
  - intros [= <-]. unfold valid_OldTag. by rewrite Hc, Ht, Hs.
Qed.

Lemma Unmarshal_OldData_ok (file : FileBytes) (cur d : OldData) :
  valid_OldData cur = true -> Unmarshal_OldData file cur = Some d ->
  valid_OldData d = true.
Proof.
  destruct file as [|doc]; [done|]. simpl.
  apply (into_struct_keeps (fun d => valid_OldData d = true)).
  intros k e a b Ha. unfold OldData_member.
  destruct (field _ k) as [[|n]|]; simpl.
  - destruct (into_slice _ e (OldTags a)) as [x|] eqn:Hx; [|done].
    intros [= <-]. unfold valid_OldData. simpl. apply forallb_Forall.
    apply (into_slice_all (fun t => valid_OldTag t = true) _ _ _ _) in Hx;
      [done|].
    intros j0 t. by apply into_OldTag_ok.
  - by intros [= <-].
  - by intros [= <-].
Qed.

(** ** Starting the bot *)

Lemma some_id_spec (tags : list OldTag) :
  List.Exists (fun t => OldSubscribers t <> []) tags ->
  forallb (fun t => (length (OldSubscribers t) =? 0)%nat) tags = false.
Proof.
  intros Hex.
  destruct (forallb _ tags) eqn:H; [|done].
  by apply no_ids_spec in H.
Qed.

Lemma agree_after_save (w : World) (d : Data) (w1 : World) :
  valid_Data d = true ->
  saveData (set_data w d) = (w1, None) ->
  data w1 = d /\ tags_json w1 = Some (MarshalIndent d)
  /\ read_ok w1 = read_ok w /\ write_ok w1 = true
  /\ dotenv_ok w1 = dotenv_ok w
  /\ TELEGRAM_BOT_TOKEN w1 = TELEGRAM_BOT_TOKEN w
  /\ writes w1 = S (writes w).
Proof.
  intros _. unfold saveData, WriteFile. cbn [write_ok set_data data].
  destruct (write_ok w) eqn:Hw; [|done]. by intros [= <-].
Qed.

Lemma Main_loaded (w w1 : World) :
  data w = zeroData ->
  Main.loadData w = (w1, None) ->
  valid_Data (data w1) = true
  /\ (exists file : FileBytes,
        tags_json w1 = Some file
        /\ Unmarshal_Data file zeroData = Some (data w1))
  /\ read_ok w1 = read_ok w.
Proof.
  intros Hz. unfold Main.loadData.
  destruct (tags_json w) as [file|] eqn:Hfile.
  - destruct (read_ok w) eqn:Hr; [|done]. simpl.
    destruct (Unmarshal_Data file (data w)) as [d|] eqn:Hd; [|done].
    intros [= <-]. rewrite Hz in Hd. simpl. repeat split; try done.
    + by apply (Unmarshal_Data_ok file zeroData).
    + by exists file.
  - intros H. apply agree_after_save in H as (-> & -> & -> & _); [|done].
    repeat split; try done.
    eexists. split; [done|]. by apply Unmarshal_Marshal.
Qed.

Lemma Part000_loaded (w w1 : World) :
  data w = zeroData ->
  Part000.loadData w = (w1, Return None) ->
  valid_Data (data w1) = true
  /\ (exists file : FileBytes,
        tags_json w1 = Some file
        /\ Unmarshal_Data file zeroData = Some (data w1))
  /\ read_ok w1 = read_ok w /\ dotenv_ok w1 = true
  /\ TELEGRAM_BOT_TOKEN w1 <> "".
Proof.
  intros Hz. unfold Part000.loadData.
  destruct (dotenv_ok w) eqn:He; [|done]. simpl.
  destruct (String.eqb_spec (TELEGRAM_BOT_TOKEN w) "") as [|Htok]; [done|].
  destruct (tags_json w) as [file|] eqn:Hfile.
  - destruct (read_ok w) eqn:Hr; [|done]. simpl.
    destruct (Unmarshal_Data file (data w)) as [d|] eqn:Hd.
    + intros [= <-]. rewrite Hz in Hd. simpl. repeat split; try done.
      * by apply (Unmarshal_Data_ok file zeroData).
      * by exists file.
    + destruct (Unmarshal_OldData file {| OldTags := [] |}) as [old|] eqn:Ho;
        [|done].
      rewrite convert_migrated.
      assert (valid_Data {| Tags := map migrated (OldTags old) |} = true)
        as Hv.
      { apply valid_migrated.
        by apply (Unmarshal_OldData_ok file {| OldTags := [] |}). }
      destruct (saveData _) as [w2 [e|]] eqn:Hs; [done|].
      intros [= <-].
      apply agree_after_save in Hs as (-> & -> & -> & _ & -> & -> & _);
        [|done].
      repeat split; try done.
      eexists. split; [done|]. by apply Unmarshal_Marshal.
  - destruct (saveData _) as [w2 e] eqn:Hs. intros [= <- ->].
    apply agree_after_save in Hs as (-> & -> & -> & _ & -> & -> & _);
      [|done].
    repeat split; try done.
    eexists. split; [done|]. by apply Unmarshal_Marshal.
Qed.

(** X10.  When [main] of either file gets as far as polling, the file exists
    and decodes, under the current schema, to the tags in memory; and the
    ids and timestamps in memory are those of Go values. *)
Theorem started_with_the_file_in_memory (newBot_ok : bool) (w w1 : World) :
  data w = zeroData ->
  (Part000_main newBot_ok w = Started w1 ->
   valid_Data (data w1) = true
   /\ exists file : FileBytes,
        tags_json w1 = Some file
        /\ Unmarshal_Data file zeroData = Some (data w1))
  /\ (Main_main newBot_ok w = Started w1 ->
      valid_Data (data w1) = true
      /\ exists file : FileBytes,
           tags_json w1 = Some file
           /\ Unmarshal_Data file zeroData = Some (data w1)).
Proof.
  intros Hz. unfold Part000_main, Main_main. split.
  - destruct (negb (dotenv_ok w)); [done|].
    destruct (String.eqb _ _); [done|].
    destruct (negb newBot_ok); [done|].
    destruct (Part000.loadData w) as [w2 [|[e|]]] eqn:Hl; try done.
    intros [= <-]. by destruct (Part000_loaded w w2 Hz Hl) as (? & ? & _).
  - destruct (String.eqb _ _); [done|].
    destruct (negb newBot_ok); [done|].
    destruct (Main.loadData w) as [w2 [e|]] eqn:Hl; try done.
    intros [= <-]. by destruct (Main_loaded w w2 Hz Hl) as (? & ? & _).
Qed.

(** X11.  The first start, with no file: [main], in either file, creates
    the file with an empty list of tags and starts with no tag in memory
    if the disk takes the write, and gives up if it does not. *)
Theorem first_start_creates_the_file (w : World) :
  tags_json w = None ->
  dotenv_ok w = true -> TELEGRAM_BOT_TOKEN w <> "" ->
  (write_ok w = true ->
   exists w1 : World,
     Part000_main true w = Started w1 /\ Main_main true w = Started w1
     /\ Tags (data w1) = []
     /\ tags_json w1 = Some (MarshalIndent {| Tags := [] |}))
  /\ (write_ok w = false ->
      Part000_main true w = Fatal /\ Main_main true w = Fatal).
Proof.
  intros Hfile He Htok. apply String.eqb_neq in Htok.
  unfold Part000_main, Main_main, Part000.loadData, Main.loadData,
    saveData, WriteFile.
  rewrite He, Htok, Hfile. cbn [negb write_ok set_data].
  split; intros ->; [|done].
  eexists. by repeat split.
Qed.

(** X12.  main.go has no way back to the legacy layout: on a file of that
    layout that holds at least one subscriber id its [loadData] returns
    the decoding error, and [main] gives up. *)
Theorem main_go_stops_on_a_legacy_file (newBot_ok : bool) (w : World)
  (old : OldData) :
  valid_OldData old = true ->
  List.Exists (fun t => OldSubscribers t <> []) (OldTags old) ->
  tags_json w = Some (legacy_document old) ->
  read_ok w = true ->
  snd (Main.loadData w) = Some UnmarshalError
  /\ Main_main newBot_ok w = Fatal.
Proof.
  intros Hv Hex Hfile Hr.
  assert (Main.loadData w = (w, Some UnmarshalError)) as Hl.
  { unfold Main.loadData. rewrite Hfile, Hr. cbn [negb].
    by rewrite (Unmarshal_Data_legacy old _ Hv), (some_id_spec _ Hex). }
  split; [by rewrite Hl|]. unfold Main_main. rewrite Hl.
  by repeat match goal with
            | |- context [if ?c then _ else _] => destruct c
            end.
Qed.

(** X13.  Migration happens once: after a [loadData] of part_000 that converted
    a file of the legacy layout, the next [loadData], whatever [data]
    holds by then, reads the file under the current schema, returns the
    same state and writes nothing. *)
Theorem migration_is_not_repeated (w : World) (file : FileBytes)
  (old : OldData) (d0 : Data) :
  read_ok w = true -> dotenv_ok w = true -> TELEGRAM_BOT_TOKEN w <> "" ->
  write_ok w = true ->
  tags_json w = Some file ->
  Unmarshal_Data file (data w) = None ->
  Unmarshal_OldData file {| OldTags := [] |} = Some old ->
  Part000.loadData (set_data (fst (Part000.loadData w)) d0)
  = (fst (Part000.loadData w), Return None).
Proof.
  intros Hr He Htok Hw Hfile Hnew Hold.
  rewrite (load_migrates w file old Hr He Htok Hfile Hnew Hold Hw).
  cbn [fst].
  assert (valid_Data {| Tags := map migrated (OldTags old) |} = true) as Hv.
  { apply valid_migrated.
    by apply (Unmarshal_OldData_ok file {| OldTags := [] |}). }
  apply String.eqb_neq in Htok.
  unfold Part000.loadData, saveData, WriteFile.
  cbn [write_ok set_data]. rewrite Hw.
  cbn -[MarshalIndent Unmarshal_Data]. rewrite He, Htok, Hr.
  cbn -[MarshalIndent Unmarshal_Data].
  by rewrite (Unmarshal_Marshal _ d0 Hv).
Qed.

(** X14.  What [loadData] has accepted at the start of the process it can read
    again after [saveData]: whatever the file was, saving the loaded state
    and loading it, in the same file's code, gives the loaded state. *)
Theorem loaded_state_survives_saving (w w1 : World) (d0 : Data) :
  data w = zeroData ->
  write_ok w1 = true -> read_ok w = true ->
  (Main.loadData w = (w1, None) ->
   Main.loadData (set_data (fst (saveData w1)) d0)
   = (fst (saveData w1), None)
   /\ data (fst (saveData w1)) = data w1)
  /\ (Part000.loadData w = (w1, Return None) ->
      Part000.loadData (set_data (fst (saveData w1)) d0)
      = (fst (saveData w1), Return None)
      /\ data (fst (saveData w1)) = data w1).
Proof.
  intros Hz Hw Hr. split; intros Hl.
  - destruct (Main_loaded w w1 Hz Hl) as (Hv & _ & Hr1).
    rewrite Hr in Hr1.
    destruct (load_after_save w1 d0 Hv Hw Hr1) as [Hmain _].
    split; [done|apply saveData_data].
  - destruct (Part000_loaded w w1 Hz Hl) as (Hv & _ & Hr1 & He & Htok).
    rewrite Hr in Hr1.
    destruct (load_after_save w1 d0 Hv Hw Hr1) as [_ Hpart].
    split; [by apply Hpart|apply saveData_data].
Qed.

(** ** /mt, pruning twice, and a tag nobody has subscribed to *)

Lemma mt_inner (id : Z) (line : string * string) (subs : list Subscriber)
  (acc : list (string * string) * bool) :
  fold_left
    (fun acc sub =>
       if ID sub =? id then (fst acc ++ [line], true) else acc)
    subs acc
  = (fst acc ++ repeat line (count_id id subs),
     snd acc || negb (count_id id subs =? 0)%nat).
Proof.
  unfold count_id. revert acc; induction subs as [|s subs IH];
    intros [lines found]; simpl.
  - by rewrite app_nil_r, orb_false_r.
  - destruct (ID s =? id); simpl; [|apply IH].
    rewrite IH. simpl. by rewrite <- app_assoc, orb_true_r.
Qed.

Lemma mt_outer (id : Z) (tags : list Tag)
  (acc : list (string * string) * bool) :
  fold_left
    (fun acc tag =>
       fold_left
         (fun acc sub =>
            if ID sub =? id
            then (fst acc ++ [(Name tag, Description tag)], true)
            else acc)
         (Subscribers tag) acc)
    tags acc
  = (fst acc
       ++ flat_map
            (fun t => repeat (Name t, Description t)
                        (count_id id (Subscribers t))) tags,
     snd acc || existsb (fun t => subscribed id (Subscribers t)) tags).
Proof.
  revert acc; induction tags as [|t tags IH]; intros [lines found]; simpl.
  - by rewrite app_nil_r, orb_false_r.
  - rewrite mt_inner, IH. simpl.
    by rewrite <- app_assoc, subscribed_count, orb_assoc.
Qed.

Lemma count_id_unique (id : Z) (subs : list Subscriber) :
  List.NoDup (map ID subs) ->
  count_id id subs = if subscribed id subs then 1%nat else 0%nat.
Proof.
  unfold count_id. induction subs as [|s subs IH]; simpl; [done|].
  intros H. apply List.NoDup_cons_iff in H as [Hin Hnd].
  destruct (Z.eqb_spec (ID s) id) as [Heq|]; [|by apply IH].
  simpl. rewrite (IH Hnd).
  destruct (subscribed id subs) eqn:Hs; [|done].
  apply subscribed_In in Hs. by rewrite Heq in Hin.
Qed.

(** X15.  /mt shows one line for every subscriber entry that carries the
    sender's id, tag after tag in storage order, and says that the sender
    has no tag exactly when no tag holds the id; where no tag holds an id
    twice, the lines are the tags in which the sender is subscribed, each
    once. *)
Theorem my_tags_lines (sender : User) (w : World) :
  fst (handle_mt sender w)
  = MyTags
      (flat_map
         (fun t => repeat (Name t, Description t)
                     (count_id (User_ID sender) (Subscribers t)))
         (Tags (data w)))
      (existsb (fun t => subscribed (User_ID sender) (Subscribers t))
         (Tags (data w)))
  /\ (unique_ids (Tags (data w)) ->
      fst (handle_mt sender w)
      = MyTags
          (map (fun t => (Name t, Description t))
             (subscribed_tags (User_ID sender) (Tags (data w))))
          (negb (length (subscribed_tags (User_ID sender) (Tags (data w)))
                 =? 0)%nat)).
Proof.
  assert (fst (handle_mt sender w)
          = MyTags
              (flat_map
                 (fun t => repeat (Name t, Description t)
                             (count_id (User_ID sender) (Subscribers t)))
                 (Tags (data w)))
              (existsb (fun t => subscribed (User_ID sender) (Subscribers t))
                 (Tags (data w)))) as H.
  { unfold handle_mt. by rewrite mt_outer. }
  split; [done|]. intros Hu. rewrite H. clear H. unfold unique_ids in Hu.
  unfold subscribed_tags.
  induction (Tags (data w)) as [|t tags IH]; [done|].
  apply List.Forall_cons_iff in Hu as [Ht Hu]. specialize (IH Hu).
  injection IH as IH1 IH2. simpl.
  rewrite (count_id_unique _ _ Ht), IH1, IH2.
  by destruct (subscribed (User_ID sender) (Subscribers t)).
Qed.

Lemma filter_twice {A : Type} (p : A -> bool) (l : list A) :
  List.filter p (List.filter p l) = List.filter p l.
Proof.
  induction l as [|a l IH]; simpl; [done|].
  destruct (p a) eqn:Ha; simpl; rewrite ?Ha, IH; done.
Qed.

(** X16.  Pruning twice is pruning once, as far as memory goes: the second
    pruning removes nothing, /lt and /stats answer again what they
    answered, and each of the calls writes the file. *)
Theorem pruning_twice (w : World) :
  data (cleanEmptyTags (cleanEmptyTags w)) = data (cleanEmptyTags w)
  /\ fst (handle_lt (snd (handle_lt w))) = fst (handle_lt w)
  /\ fst (Part000.handle_stats (snd (Part000.handle_stats w)))
     = fst (Part000.handle_stats w)
  /\ fst (Main.handle_stats (snd (Main.handle_stats w)))
     = fst (Main.handle_stats w)
  /\ writes (cleanEmptyTags (cleanEmptyTags w)) = S (S (writes w)).
Proof.
  assert (data (cleanEmptyTags (cleanEmptyTags w)) = data (cleanEmptyTags w))
    as Hd.
  { rewrite <- (data_eta (data (cleanEmptyTags (cleanEmptyTags w)))),
      <- (data_eta (data (cleanEmptyTags w))).
    by rewrite !cleanEmptyTags_tags, filter_twice. }
  unfold handle_lt, Part000.handle_stats, Main.handle_stats.
  repeat apply conj; try done.
  - destruct (length (Tags (data (cleanEmptyTags w))) =? 0)%nat eqn:H;
      simpl; by rewrite Hd, H.
  - destruct (length (Tags (data (cleanEmptyTags w))) =? 0)%nat eqn:H;
      simpl; by rewrite Hd, H.
  - simpl. by rewrite Hd.
  - by rewrite !cleanEmptyTags_writes.
Qed.

Section Reclaimed.

Variable ToLower : string -> string.

Lemma pruned_after_append (w1 w : World) (t : Tag) :
  data w1 = {| Tags := Tags (data w) ++ [t] |} ->
  Subscribers t = [] ->
  data (cleanEmptyTags w1) = data (cleanEmptyTags w).
Proof.
  intros Hd Hs.
  rewrite <- (data_eta (data (cleanEmptyTags w1))),
    <- (data_eta (data (cleanEmptyTags w))).
  rewrite !cleanEmptyTags_tags, Hd. simpl.
  rewrite List.filter_app. simpl. unfold has_subscribers at 2.
  rewrite Hs. simpl. by rewrite app_nil_r.
Qed.

(** X17.  A tag that nobody has subscribed to does not outlive the next /lt or
    /stats: pruning right after a /ct that created a tag, in either file,
    leaves in memory what pruning without the /ct would have left, so
    that /lt shows what it would have shown, and the new name finds
    nothing. *)
Theorem new_tag_is_pruned (tagName : string) (rest : list string)
  (sender : User) (now : Time) (w : World) :
  (forall u n d : string,
     fst (Part000.handle_ct ToLower (tagName :: rest) sender now w)
     = Created u n d ->
     let w1 := snd (Part000.handle_ct ToLower (tagName :: rest) sender now w) in
     data (cleanEmptyTags w1) = data (cleanEmptyTags w)
     /\ fst (handle_lt w1) = fst (handle_lt w)
     /\ findTag ToLower tagName (data (cleanEmptyTags w1)) = None)
  /\ (forall u n d : string,
        fst (Main.handle_ct ToLower (tagName :: rest) sender now w)
        = Created u n d ->
        let w1 := snd (Main.handle_ct ToLower (tagName :: rest) sender now w) in
        data (cleanEmptyTags w1) = data (cleanEmptyTags w)
        /\ fst (handle_lt w1) = fst (handle_lt w)
        /\ findTag ToLower tagName (data (cleanEmptyTags w1)) = None).
Proof.
  assert (forall w1 : World,
            findTag ToLower tagName (data w) = None ->
            data w1
            = {| Tags := Tags (data w) ++ [new_tag tagName rest sender now] |} ->
            data (cleanEmptyTags w1) = data (cleanEmptyTags w)
            /\ fst (handle_lt w1) = fst (handle_lt w)
            /\ findTag ToLower tagName (data (cleanEmptyTags w1)) = None)
    as Hboth.
  { intros w1 Hnone Hd.
    pose proof (pruned_after_append w1 w _ Hd eq_refl) as Hp.
    repeat apply conj; [done| |].
    - unfold handle_lt. rewrite Hp.
      by destruct (length (Tags (data (cleanEmptyTags w))) =? 0)%nat.
    - rewrite Hp. apply findTag_None. rewrite cleanEmptyTags_tags.
      apply findTag_None in Hnone. rewrite List.Forall_forall in *.
      intros t Hin. apply filter_In in Hin as [Hin _]. by apply Hnone. }
  split; intros u n d H w1; subst w1.
  - apply Part000_created in H as [Hnone Hd]. by apply Hboth.
  - apply Main_created in H as [Hnone Hd]. by apply Hboth.
Qed.

(** X18.  Subscribing and the mentions: a /st that subscribed the sender has
    added, at the end of the subscribers of the tag it found, an entry with
    the sender's id under the sender's user name, or under the placeholder
    of the id if the sender has no user name.  The mentions of the tag are
    then the mentions it had, followed by the sender's user name behind an
    at sign if that name is neither empty nor the placeholder of the
    sender's id; so a sender without a user name is stored under the
    placeholder and is not mentioned. *)
Theorem subscriber_is_mentioned_by_name (name : string) (rest : list string)
  (sender : User) (w : World) (tagName : string) :
  fst (handle_st ToLower (name :: rest) sender w) = Subscribed tagName ->
  (exists (i : nat) (tag : Tag),
     findTag ToLower name (data w) = Some (i, tag)
     /\ findTag ToLower name
          (data (snd (handle_st ToLower (name :: rest) sender w)))
        = Some (i, with_Subscribers tag
                     (Subscribers tag
                        ++ [{| ID := User_ID sender;
                               Username :=
                                 if String.eqb (User_Username sender) ""
                                 then placeholder (User_ID sender)
                                 else User_Username sender |}])))
  /\ names_for ToLower
       (data (snd (handle_st ToLower (name :: rest) sender w))) name
     = names_for ToLower (data w) name
       ++ (if negb (String.eqb (User_Username sender) "")
              && negb (String.eqb (User_Username sender)
                         (placeholder (User_ID sender)))
           then ["@" +:+ User_Username sender] else []).
Proof.
  intros H.
  destruct (findTag ToLower name (data w)) as [[i tag]|] eqn:Hf.
  - destruct (subscribed (User_ID sender) (Subscribers tag)) eqn:Hs.
    + by rewrite (handle_st_again ToLower name rest sender w i tag) in H.
    + clear H.
      assert (findTag ToLower name
                (data (snd (handle_st ToLower (name :: rest) sender w)))
              = Some (i, with_Subscribers tag
                           (Subscribers tag
                              ++ [{| ID := User_ID sender;
                                     Username :=
                                       if String.eqb (User_Username sender) ""
                                       then placeholder (User_ID sender)
                                       else User_Username sender |}])))
        as Hafter.
      { unfold handle_st. rewrite Hf, Hs.
        cbn [snd]. rewrite saveData_data. cbn [data set_data].
        unfold findTag in *. simpl. rewrite <- (Nat.sub_0_r i) at 1.
        by apply findTag_from_insert with (t := tag). }
      split; [by exists i, tag|].
      unfold names_for. rewrite Hafter, Hf.
      unfold at_names. simpl. rewrite List.filter_app, map_app. f_equal.
      unfold mentionable. simpl.
      destruct (String.eqb_spec (User_Username sender) "") as [He|Hne];
        simpl.
      * by rewrite String.eqb_refl.
      * destruct (String.eqb_spec (User_Username sender) ""); [done|].
        simpl.
        by destruct (String.eqb (User_Username sender)
                       (placeholder (User_ID sender))).
  - unfold handle_st in H. by rewrite Hf in H.
Qed.

End Reclaimed.

(** ** The phrases of main.go *)

Lemma append_empty (s : string) : s +:+ "" = s.
Proof.
  induction s as [|c s IH]; [done|].
  change (String c (s +:+ "") = String c s). by rewrite IH.
Qed.

Lemma Sprintf_two (a b : string) :
  Sprintf ("%s" +:+ nl +:+ "%s") [a; b] = Some (a +:+ nl +:+ b).
Proof.
  assert ("%s" +:+ nl +:+ "%s"
          = String "%" (String "s" (String (ascii_of_nat 10) "%s"))) as ->
    by reflexivity.
  cbn. rewrite append_empty. reflexivity.
Qed.

(** X19.  The first of main.go's five phrases has no place for the tag: a block
    that draws it ends in the phrase followed by the left-over operand as
    [fmt.Sprintf] reports it, [%!(EXTRA string=] and the tag name.  Each
    of the other four phrases shows the tag name once, behind its hash
    sign. *)
Theorem first_phrase_has_no_verb (mentions : list string) (tagName : string) :
  Main_response 0 mentions tagName
  = Some (Join mentions " " +:+ nl +:+ nth 0 funnyPhrases ""
          +:+ "%!(EXTRA string=" +:+ tagName +:+ ")")
  /\ (forall pick : nat,
        (1 <= pick < length funnyPhrases)%nat ->
        exists before after : string,
          nth pick funnyPhrases "" = before +:+ "#%s" +:+ after
          /\ Main_response pick mentions tagName
             = Some (Join mentions " " +:+ nl +:+ before +:+ "#"
                     +:+ tagName +:+ after)).
Proof.
  split.
  - unfold Main_response.
    assert (Sprintf (nth 0 funnyPhrases "") [tagName]
            = Some (nth 0 funnyPhrases "" +:+ "%!(EXTRA string="
                    +:+ tagName +:+ ")")) as -> by reflexivity.
    apply Sprintf_two.
  - intros pick [Hlo Hhi]. unfold Main_response.
    destruct pick as [|[|[|[|[|pick]]]]]; simpl in Hhi; try lia.
    + exists "Просыпайтесь, воины тега ", "!". split; [reflexivity|].
      assert (Sprintf (nth 1 funnyPhrases "") [tagName]
              = Some ("Просыпайтесь, воины тега " +:+ "#" +:+ tagName +:+ "!"))
        as -> by reflexivity.
      apply Sprintf_two.
    + exists "Снова вы, ", "? Ну давайте...". split; [reflexivity|].
      assert (Sprintf (nth 2 funnyPhrases "") [tagName]
              = Some ("Снова вы, " +:+ "#" +:+ tagName +:+ "? Ну давайте..."))
        as -> by reflexivity.
      apply Sprintf_two.
    + exists "Собрание ",
        " начинается. Кто опоздает — тот кодит в пятницу вечером!".
      split; [reflexivity|].
      assert (Sprintf (nth 3 funnyPhrases "") [tagName]
              = Some ("Собрание " +:+ "#" +:+ tagName
                      +:+ " начинается. Кто опоздает — тот кодит в пятницу вечером!"))
        as -> by reflexivity.
      apply Sprintf_two.
    + exists "🔔 Призыв по тегу ", "! Сбор у обелиска.".
      split; [reflexivity|].
      assert (Sprintf (nth 4 funnyPhrases "") [tagName]
              = Some ("🔔 Призыв по тегу " +:+ "#" +:+ tagName
                      +:+ "! Сбор у обелиска."))
        as -> by reflexivity.
      apply Sprintf_two.
Qed.

(** ** The hypotheses of the further theorems at concrete inputs *)

Lemma names_stay_unique_witness :
  unique_names ToLower_ascii
    (Tags (data (run (Part000_serve ToLower_ascii) some_updates two_tags)))
  /\ unique_names ToLower_ascii
       (Tags (data (run (Main_serve ToLower_ascii) some_updates two_tags))).
Proof.
  apply (names_stay_unique ToLower_ascii some_updates two_tags).
  unfold unique_names. simpl.
  apply List.NoDup_cons; [simpl; intuition discriminate|].
  apply List.NoDup_cons; [simpl; tauto|constructor].
Defined.

Lemma ids_stay_unique_witness :
  unique_ids
    (Tags (data (run (Part000_serve ToLower_ascii) some_updates two_tags)))
  /\ unique_ids
       (Tags (data (run (Main_serve ToLower_ascii) some_updates two_tags))).
Proof.
  apply (ids_stay_unique ToLower_ascii some_updates two_tags).
  unfold unique_ids. simpl.
  apply List.Forall_cons; [constructor|].
  apply List.Forall_cons; [|constructor]. simpl.
  apply List.NoDup_cons; [simpl; intuition discriminate|].
  apply List.NoDup_cons; [simpl; intuition discriminate|].
  apply List.NoDup_cons; [simpl; tauto|constructor].
Defined.

Lemma limits_are_kept_witness :
  within_limits
    (Tags (data (run (Part000_serve ToLower_ascii) some_updates two_tags))).
Proof.
  apply (limits_are_kept ToLower_ascii some_updates two_tags).
  unfold within_limits. simpl. split.
  - apply List.Forall_cons; [simpl; lia|].
    apply List.Forall_cons; [simpl; lia|constructor].
  - intros id. unfold tags_of. simpl.
    repeat match goal with
           | |- context [if ?c then _ else _] => destruct c
           end; simpl; lia.
Defined.

Lemma findTag_is_the_first_match_witness :
  Tags (data two_tags) !! 1%nat = Some team
  /\ ToLower_ascii (Name team) = ToLower_ascii "TEAM"
  /\ (forall (j : nat) (t0 : Tag),
        (j < 1)%nat -> Tags (data two_tags) !! j = Some t0 ->
        ToLower_ascii (Name t0) <> ToLower_ascii "TEAM").
Proof.
  apply (findTag_is_the_first_match ToLower_ascii "TEAM" (data two_tags)
           1%nat team).
  reflexivity.
Defined.

Lemma first_argument_up_to_case_witness :
  handle_st ToLower_ascii ["TEAM"; "please"] alice two_tags
  = handle_st ToLower_ascii ["team"] alice two_tags
  /\ Part000.handle_dt ToLower_ascii ["TEAM"; "please"] alice false two_tags
     = Part000.handle_dt ToLower_ascii ["team"] alice false two_tags
  /\ Main.handle_dt ToLower_ascii ["TEAM"; "please"] alice two_tags
     = Main.handle_dt ToLower_ascii ["team"] alice two_tags.
Proof.
  apply (first_argument_up_to_case ToLower_ascii "team" "TEAM" [] ["please"]
           alice false two_tags).
  reflexivity.
Defined.

Lemma delete_removes_one_witness :
  Tags (data (snd (Part000.handle_dt ToLower_ascii ["team"] alice false
                     two_tags))) = [idle]
  /\ Tags (data (snd (Main.handle_dt ToLower_ascii ["team"] alice two_tags)))
     = [idle].
Proof.
  assert (unique_names ToLower_ascii (Tags (data two_tags))) as Hu.
  { unfold unique_names. simpl.
    apply List.NoDup_cons; [simpl; intuition discriminate|].
    apply List.NoDup_cons; [simpl; tauto|constructor]. }
  destruct (delete_removes_one ToLower_ascii "team" [] alice false two_tags
              1%nat team Hu eq_refl) as [Hp Hm].
  split; [exact (Hp "Team" eq_refl)|exact (Hm "Team" eq_refl)].
Defined.

Lemma deleted_name_is_free_witness :
  fst (Main.handle_ct ToLower_ascii ["TEAM"] bob noon
         (snd (Main.handle_dt ToLower_ascii ["team"] alice two_tags)))
  = Created "bob" "TEAM" ""
  /\ fst (Part000.handle_ct ToLower_ascii ["TEAM"] bob noon
            (snd (Part000.handle_dt ToLower_ascii ["team"] alice false
                    two_tags)))
     <> TagExists.
Proof.
  destruct (deleted_name_is_free ToLower_ascii "team" "TEAM" [] [] alice bob
              false noon two_tags eq_refl) as [Hm Hp].
  split; [exact (Hm "Team" eq_refl)|exact (Hp "Team" eq_refl)].
Defined.

Lemma started_with_the_file_in_memory_witness :
  valid_Data (data lunch_world) = true
  /\ exists file : FileBytes,
       tags_json lunch_world = Some file
       /\ Unmarshal_Data file zeroData = Some (data lunch_world).
Proof.
  apply (proj2 (started_with_the_file_in_memory true
                  (set_data lunch_world zeroData) lunch_world eq_refl)).
  reflexivity.
Defined.

Lemma first_start_creates_the_file_witness :
  exists w1 : World,
    Part000_main true fresh = Started w1 /\ Main_main true fresh = Started w1
    /\ Tags (data w1) = []
    /\ tags_json w1 = Some (MarshalIndent {| Tags := [] |}).
Proof.
  assert ("token" <> "") as Htok by discriminate.
  apply (proj1 (first_start_creates_the_file fresh eq_refl eq_refl Htok)).
  reflexivity.
Defined.

Lemma main_go_stops_on_a_legacy_file_witness :
  snd (Main.loadData (with_file (Some (legacy_document old_x)) fresh))
  = Some UnmarshalError
  /\ Main_main true (with_file (Some (legacy_document old_x)) fresh) = Fatal.
Proof.
  apply (main_go_stops_on_a_legacy_file true
           (with_file (Some (legacy_document old_x)) fresh) old_x).
  - reflexivity.
  - apply List.Exists_cons_hd. simpl. discriminate.
  - reflexivity.
  - reflexivity.
Defined.

Lemma migration_is_not_repeated_witness :
  Part000.loadData
    (set_data (fst (Part000.loadData (with_file (Some legacy_x) fresh)))
       zeroData)
  = (fst (Part000.loadData (with_file (Some legacy_x) fresh)), Return None).
Proof.
  assert ("token" <> "") as Htok by discriminate.
  apply (migration_is_not_repeated (with_file (Some legacy_x) fresh) legacy_x
           {| OldTags :=
                [{| OldName := "x"; OldCreatorID := 1; OldCreatorName := "";
                    OldDescription := ""; OldSubscribers := [5; 6];
                    OldCreatedAt := zeroTime |}] |}
           zeroData eq_refl eq_refl Htok eq_refl eq_refl eq_refl eq_refl).
Defined.

Lemma loaded_state_survives_saving_witness :
  Main.loadData (set_data (fst (saveData lunch_world)) zeroData)
  = (fst (saveData lunch_world), None)
  /\ data (fst (saveData lunch_world)) = data lunch_world.
Proof.
  apply (proj1 (loaded_state_survives_saving
                  (set_data lunch_world zeroData) lunch_world zeroData
                  eq_refl eq_refl eq_refl)).
  reflexivity.
Defined.

Lemma subscriber_is_mentioned_by_name_witness :
  (exists (i : nat) (tag : Tag),
     findTag ToLower_ascii "lunch" (data lunch_world) = Some (i, tag)
     /\ findTag ToLower_ascii "lunch"
          (data (snd (handle_st ToLower_ascii ["lunch"]
                        {| User_ID := 9; User_Username := "" |} lunch_world)))
        = Some (i, with_Subscribers tag
                     (Subscribers tag ++ [{| ID := 9; Username := "User9" |}])))
  /\ names_for ToLower_ascii
       (data (snd (handle_st ToLower_ascii ["lunch"]
                     {| User_ID := 9; User_Username := "" |} lunch_world)))
       "lunch"
     = names_for ToLower_ascii (data lunch_world) "lunch" ++ [].
Proof.
  apply (subscriber_is_mentioned_by_name ToLower_ascii "lunch" []
           {| User_ID := 9; User_Username := "" |} lunch_world "lunch").
  reflexivity.
Defined.
